(** * SkyLink Airlines: the browser-side page controllers

    A shallow embedding of the page scripts of the airline portal
    (aircraft administration, login, registration, forgot/reset password,
    profile and dashboard) and the properties of their session/request
    contract.

    How the scripts are read:
    - the page is a record [World]: the persistent store, the location, the
      module-level bindings, the DOM properties the scripts touch, and two
      logs (the [alert] boxes shown and the network calls issued);
    - an [async] handler is cut at its [await fetch(...)]: the part before it
      returns the new page together with the suspended [call], and [resume]
      runs the rest once the reply is there.  Handlers started without
      [await] (a nested [loadProfile()]) leave their own suspended call;
    - a reply is either a rejected promise, a 2xx response, or a non-2xx
      response with its status; bodies have the shapes of the REST
      interface, or fail to parse;
    - a number is [NaN], an infinity or an integer that is a double, and
      [parseInt] and [+] round as doubles do; a string is held as its UTF-8
      bytes, [js_length] is its [.length] in UTF-16 code units, and white
      space is that of the language, its multi-byte characters included;
    - [console] output is not kept. *)

From stdpp Require Import gmap strings list fin_maps pretty.
From Stdlib Require Import ZArith Lia Ascii.
Local Open Scope string_scope.
Local Open Scope list_scope.
Local Open Scope Z_scope.

(** ** JavaScript values and operators *)

(** *** Numbers *)

(** A JS number of the pages: not-a-number, an infinity, or an integer that
    is a double ([Num z] is only built through [to_double]).  Fractions do
    not arise: the scripts get their numbers from [parseInt], from [+] and
    from the integer fields of the REST interface.  The sign of zero is not
    kept: no operation of the scripts tells [-0] from [0]. *)
Inductive Number :=
  | NaN
  | Infinity (negative : bool)
  | Num (z : Z).

(** The double nearest to an integer: exact below [2^53]; above, 53
    significant bits are kept, ties go to the even significand, and what
    rounds to [2^1024] is infinite. *)
Definition to_double (z : Z) : Number :=
  if Z.abs z <? 2 ^ 53 then Num z
  else
    let a := Z.abs z in
    let e := Z.log2 a - 52 in
    let q := Z.shiftr a e in
    let r := a - Z.shiftl q e in
    let half := Z.shiftl 1 (e - 1) in
    let q' := if (half <? r) || ((r =? half) && Z.odd q) then q + 1 else q in
    let m := Z.shiftl q' e in
    if 2 ^ 1024 <=? m then Infinity (z <? 0) else Num (Z.sgn z * m).

(** [a + b] on numbers: the exact sum, rounded. *)
Definition num_add (a b : Number) : Number :=
  match a, b with
  | NaN, _ | _, NaN => NaN
  | Infinity s, Infinity s' => if Bool.eqb s s' then Infinity s else NaN
  | Infinity s, Num _ | Num _, Infinity s => Infinity s
  | Num x, Num y => to_double (x + y)
  end.

(** Truthiness of a number: [NaN] and [0] are falsy. *)
Definition num_truthy (n : Number) : bool :=
  match n with
  | NaN => false
  | Infinity _ => true
  | Num z => negb (z =? 0)
  end.

(** [n || 0]. *)
Definition num_or_zero (n : Number) : Number :=
  if num_truthy n then n else Num 0.

(** [n || null]: the result is a number or [null] ([None]). *)
Definition num_or_null (n : Number) : option Number :=
  if num_truthy n then Some n else None.

(** The number [JSON.parse] reads from an integer of the response text. *)
Definition json_number (z : Z) : Number := to_double z.

(** **** Number to string *)

Definition digit_count (z : Z) : Z := Z.of_nat (String.length (pretty z)).

Definition rounds_to (x v : Z) : bool :=
  match to_double v with
  | Num y => y =? x
  | _ => false
  end.

(** The two [k]-digit candidates around [x / 10^(n-k)], the nearer one
    first (the even one on a tie). *)
Definition candidates (x n k : Z) : list Z :=
  let p := 10 ^ (n - k) in
  let lo := x / p in
  let hi := lo + 1 in
  let below := x - lo * p in
  let above := hi * p - x in
  if (below <? above) || ((below =? above) && Z.even lo)
  then [lo; hi] else [hi; lo].

Definition digits_for (x n k : Z) : option Z :=
  head (List.filter
          (fun s => (10 ^ (k - 1) <=? s) && (s <? 10 ^ k)
                    && rounds_to x (s * 10 ^ (n - k)))
          (candidates x n k)).

(** The fewest digits [s] (there are [k] of them) with [s * 10^(n-k)]
    rounding to the double [x]. *)
Fixpoint shortest (x n k : Z) (fuel : nat) : Z * Z * Z :=
  match fuel with
  | O => (x, n, n)
  | S fuel' =>
      match digits_for x n k, digits_for x (n + 1) k with
      | Some s, _ => (s, k, n)
      | None, Some s => (s, k, n + 1)
      | None, None => shortest x n (k + 1) fuel'
      end
  end.

Fixpoint zeros (n : nat) : string :=
  match n with
  | O => ""
  | S n' => String "0" (zeros n')
  end.

(** A positive double from [2^53] on: plain digits and zeros below [10^21],
    the exponent form from there. *)
Definition large_toString (x : Z) : string :=
  let '(s, k, n) := shortest x (digit_count x) 1 (Z.to_nat (digit_count x)) in
  if n <=? 21 then pretty s +:+ zeros (Z.to_nat (n - k))
  else
    match pretty s with
    | String d EmptyString => String d "e+" +:+ pretty (n - 1)
    | String d r => String d (String "." r) +:+ "e+" +:+ pretty (n - 1)
    | EmptyString => EmptyString
    end.

(** String conversion of a number (template literals, [textContent],
    [value]).  Below [2^53] the digits of the integer are the shortest that
    read back as it. *)
Definition Number_toString (n : Number) : string :=
  match n with
  | NaN => "NaN"
  | Infinity negative => if negative then "-Infinity" else "Infinity"
  | Num z =>
      if Z.abs z <? 2 ^ 53 then pretty z
      else (if z <? 0 then "-" else "") +:+ large_toString (Z.abs z)
  end.

(** String conversion of an integer field of a response. *)
Definition show (z : Z) : string := Number_toString (json_number z).

(** Truthiness of a string that may be [null]/[undefined]. *)
Definition truthy (o : option string) : bool :=
  match o with
  | Some s => negb (bool_decide (s = ""))
  | None => false
  end.

(** [o || d] on strings. *)
Definition str_or (o : option string) (d : string) : string :=
  match o with
  | Some s => if bool_decide (s = "") then d else s
  | None => d
  end.

(** [s || null] on a string. *)
Definition str_or_null (s : string) : option string :=
  if bool_decide (s = "") then None else Some s.

(** String conversion of a value that may be [null] (the [token] binding
    inside a template literal). *)
Definition null_string (o : option string) : string := default "null" o.

(** String conversion of a field that may be [undefined]. *)
Definition undefined_string (o : option string) : string := default "undefined" o.

(** *** Characters *)

Definition code (c : ascii) : Z := Z.of_N (N_of_ascii c).

Definition is_digit (c : ascii) : bool := (48 <=? code c) && (code c <=? 57).

(** Value of a hexadecimal digit. *)
Definition hex_value (c : ascii) : option Z :=
  let n := code c in
  if (48 <=? n) && (n <=? 57) then Some (n - 48)
  else if (97 <=? n) && (n <=? 102) then Some (n - 87)
  else if (65 <=? n) && (n <=? 70) then Some (n - 55)
  else None.

Definition dec_value (c : ascii) : option Z :=
  if is_digit c then Some (code c - 48) else None.

(** *** Strings *)

(** A string is held as the bytes of its UTF-8 encoding (the string
    literals of this file are; a lone surrogate takes three bytes like
    any character of the basic plane). *)
Definition bytes (l : list nat) : string :=
  foldr (fun n s => String (ascii_of_nat n) s) EmptyString l.

(** The UTF-16 code units a byte stands for: none for a continuation byte,
    two for the first byte of a four-byte character, one otherwise. *)
Definition code_units (c : ascii) : nat :=
  let n := code c in
  if (128 <=? n) && (n <? 192) then 0%nat
  else if 240 <=? n then 2%nat
  else 1%nat.

(** [s.length]: the number of UTF-16 code units. *)
Fixpoint js_length (s : string) : nat :=
  match s with
  | String c r => (code_units c + js_length r)%nat
  | EmptyString => 0%nat
  end.

(** The white space and line terminators of the language, in UTF-8: TAB,
    LF, VT, FF, CR, SP, U+00A0, U+1680, U+2000 to U+200A, U+2028, U+2029,
    U+202F, U+205F, U+3000 and U+FEFF. *)
Definition whitespace : list string :=
  map bytes
    [ [9%nat]; [10%nat]; [11%nat]; [12%nat]; [13%nat]; [32%nat];
      [194; 160]%nat;
      [225; 154; 128]%nat;
      [226; 128; 128]%nat; [226; 128; 129]%nat; [226; 128; 130]%nat;
      [226; 128; 131]%nat; [226; 128; 132]%nat; [226; 128; 133]%nat;
      [226; 128; 134]%nat; [226; 128; 135]%nat; [226; 128; 136]%nat;
      [226; 128; 137]%nat; [226; 128; 138]%nat;
      [226; 128; 168]%nat; [226; 128; 169]%nat;
      [226; 128; 175]%nat;
      [226; 129; 159]%nat;
      [227; 128; 128]%nat;
      [239; 187; 191]%nat ].

(** What follows the prefix [p] in [s]. *)
Fixpoint strip_prefix (p s : string) : option string :=
  match p, s with
  | EmptyString, _ => Some s
  | String a p', String b s' =>
      if Ascii.eqb a b then strip_prefix p' s' else None
  | String _ _, EmptyString => None
  end.

(** What follows the first of [ps] that starts [s]. *)
Fixpoint strip_any (ps : list string) (s : string) : option string :=
  match ps with
  | p :: ps' =>
      match strip_prefix p s with
      | Some r => Some r
      | None => strip_any ps' s
      end
  | [] => None
  end.

(** Members of [ps] are dropped from the start of [s] while there are any;
    [fuel] bounds the number dropped. *)
Fixpoint drop_leading (ps : list string) (fuel : nat) (s : string) : string :=
  match fuel with
  | S fuel' =>
      match strip_any ps s with
      | Some r => drop_leading ps fuel' r
      | None => s
      end
  | O => s
  end.

Definition trimStart (s : string) : string :=
  drop_leading whitespace (String.length s) s.

(** The same from the end, on the reversed bytes. *)
Definition trimEnd (s : string) : string :=
  String.rev
    (drop_leading (String.rev <$> whitespace) (String.length s) (String.rev s)).

(** [String.prototype.trim]: white space is dropped at both ends. *)
Definition trim (s : string) : string := trimEnd (trimStart s).

(** [String.prototype.toLowerCase] on the letters A to Z; other code units
    are kept. *)
Definition lower (c : ascii) : ascii :=
  if (65 <=? code c) && (code c <=? 90)
  then ascii_of_N (N_of_ascii c + 32)
  else c.

Fixpoint toLowerCase (s : string) : string :=
  match s with
  | String c r => String (lower c) (toLowerCase r)
  | EmptyString => EmptyString
  end.

(** [Array.prototype.includes] on an array of strings. *)
Definition includes (l : list string) (s : string) : bool :=
  bool_decide (s ∈ l).

(** *** parseInt *)

(** The longest prefix of digits in the given radix, read left to right:
    [acc] is the value read so far, [seen] whether a digit was read.  The
    digits are read exactly and the number is the double nearest to them
    (past twenty decimal digits the language also allows an implementation
    to read the further ones as zeros). *)
Fixpoint digits (value : ascii -> option Z) (radix : Z)
    (s : string) (acc : Z) (seen : bool) : Number :=
  match s with
  | String c r =>
      match value c with
      | Some d => digits value radix r (acc * radix + d) true
      | None => if seen then to_double acc else NaN
      end
  | EmptyString => if seen then to_double acc else NaN
  end.

(** After the sign: a [0x]/[0X] prefix selects radix 16. *)
Definition parse_magnitude (s : string) : Number :=
  match s with
  | String "0" (String "x" r) => digits hex_value 16 r 0 false
  | String "0" (String "X" r) => digits hex_value 16 r 0 false
  | _ => digits dec_value 10 s 0 false
  end.

Definition num_neg (n : Number) : Number :=
  match n with
  | NaN => NaN
  | Infinity negative => Infinity (negb negative)
  | Num z => Num (- z)
  end.

(** [parseInt(s)] with no radix argument. *)
Definition parseInt (s : string) : Number :=
  match trimStart s with
  | String "-" r => num_neg (parse_magnitude r)
  | String "+" r => parse_magnitude r
  | t => parse_magnitude t
  end.

(** ** Entities of the REST interface *)

Module User.
Record t := {
  email : string;
  full_name : string;
  role : string;
  phone : option string;
  profile_photo : option string;
  is_verified : bool;
  created_at : option string;
  last_login : option string
}.
End User.

Module Aircraft.
Record t := {
  id : Z;
  aircraft_number : string;
  manufacturer : string;
  model : string;
  manufacturing_year : option Z;
  economy_seats : Z;
  business_seats : Z;
  first_class_seats : Z;
  total_seats : Z;
  status : string
}.
End Aircraft.

Module Log.
Record t := {
  action : string;
  details : option string;
  timestamp : string;
  ip_address : option string
}.
End Log.

(** The [File] picked in the photo input. *)
Module File.
Record t := { name : string; type : string; size : Z }.
End File.

(** The object [saveAircraft] serialises: a seat count is whatever
    [parseInt] gave, [NaN] included. *)
Module AircraftData.
Record t := {
  aircraft_number : string;
  manufacturer : string;
  model : string;
  manufacturing_year : option Number;
  economy_seats : Number;
  business_seats : Number;
  first_class_seats : Number;
  total_seats : Number;
  status : string
}.
End AircraftData.

(** [{access_token, user}] of a successful login. *)
Record LoginData := { access_token : string; user : User.t }.

(** ** Network calls *)

(** What a call carries as its body. *)
Inductive Payload :=
| NoBody
| LoginBody (email password : string)
| RegisterBody (email full_name password : string) (phone : option string)
    (role : string)
| EmailBody (email : string)
| ResetBody (token : option string) (new_password : string)
| ProfileBody (full_name : string) (phone password : option string)
| StatusBody (status : string)
| AircraftBody (data : AircraftData.t)
| FormDataBody (file : File.t).

Record Request := {
  method : string;
  url : string;
  content_json : bool;              (* Content-Type: application/json *)
  authorization : option string;    (* the Authorization header *)
  body : Payload
}.

(** A body read with [response.json()]: it parses, or the promise rejects
    with the parser's message. *)
Inductive parsed (A : Type) :=
| SyntaxError (msg : string)
| Json (a : A).
Arguments SyntaxError {A} msg.
Arguments Json {A} a.

(** How an awaited [fetch] ends.  [ok] is a status in 200..299; an error
    body is a JSON object whose [detail] may be missing. *)
Inductive reply (A : Type) :=
| Rejected (msg : string)
| Ok (body : parsed A)
| NotOk (status : Z) (body : parsed (option string)).
Arguments Rejected {A} msg.
Arguments Ok {A} body.
Arguments NotOk {A} status body.

(** The handlers suspended at an [await fetch], each with the local
    bindings its continuation still reads. *)
Inductive call :=
| ForgotPassword (originalText : string)
| Login (originalText : string)
| Register (originalText : string)
| ResetPassword (originalText : string)
| ProfilePageLoad
| ProfileUpdate (originalText : string) (full_name : string)
| ResendVerification
| UploadPhoto
| DeletePhoto
| ProfileLogout
| DashboardLoad
| ActivityLogs
| DashboardLogout
| LoadAircraft
| EditAircraft (id : Z)
| ChangeStatus
| SaveAircraft.

#[global] Instance call_eq_dec : EqDecision call.
Proof. solve_decision. Defined.

(** The shape of a 2xx body, per call.  A [{message}] body is the message,
    possibly missing; calls that never read a 2xx body get [unit]. *)
Definition data (c : call) : Type :=
  match c with
  | Login _ => LoginData
  | ProfilePageLoad | DashboardLoad => User.t
  | ActivityLogs => list Log.t
  | LoadAircraft => list Aircraft.t
  | EditAircraft _ => Aircraft.t
  | ForgotPassword _ | ResetPassword _ | ResendVerification
  | UploadPhoto | DeletePhoto => option string
  | Register _ | ProfileUpdate _ _ | ProfileLogout | DashboardLogout
  | ChangeStatus | SaveAircraft => unit
  end.

(** ** The page *)

Record Button := { disabled : bool; textContent : string }.

Record World := {
  localStorage : gmap string string;
  href : string;                         (* window.location.href *)
  token : option string;                 (* the module-level [token] *)
  editingAircraftId : option Z;
  submitBtn : Button;                    (* button[type=submit] of the form *)
  elements : gset string;                (* ids present in the document *)
  props : gmap (string * string) string; (* (id, property) to its value *)
  alerts : list string;
  requests : list Request
}.

Definition set_localStorage (f : gmap string string -> gmap string string)
    (w : World) : World :=
  {| localStorage := f (localStorage w); href := href w; token := token w;
     editingAircraftId := editingAircraftId w; submitBtn := submitBtn w;
     elements := elements w; props := props w; alerts := alerts w;
     requests := requests w |}.

Definition set_href (h : string) (w : World) : World :=
  {| localStorage := localStorage w; href := h; token := token w;
     editingAircraftId := editingAircraftId w; submitBtn := submitBtn w;
     elements := elements w; props := props w; alerts := alerts w;
     requests := requests w |}.

Definition set_token (t : option string) (w : World) : World :=
  {| localStorage := localStorage w; href := href w; token := t;
     editingAircraftId := editingAircraftId w; submitBtn := submitBtn w;
     elements := elements w; props := props w; alerts := alerts w;
     requests := requests w |}.

Definition set_editingAircraftId (i : option Z) (w : World) : World :=
  {| localStorage := localStorage w; href := href w; token := token w;
     editingAircraftId := i; submitBtn := submitBtn w;
     elements := elements w; props := props w; alerts := alerts w;
     requests := requests w |}.

Definition set_submitBtn (b : Button) (w : World) : World :=
  {| localStorage := localStorage w; href := href w; token := token w;
     editingAircraftId := editingAircraftId w; submitBtn := b;
     elements := elements w; props := props w; alerts := alerts w;
     requests := requests w |}.

Definition set_props
    (f : gmap (string * string) string -> gmap (string * string) string)
    (w : World) : World :=
  {| localStorage := localStorage w; href := href w; token := token w;
     editingAircraftId := editingAircraftId w; submitBtn := submitBtn w;
     elements := elements w; props := f (props w); alerts := alerts w;
     requests := requests w |}.

Definition set_alerts (f : list string -> list string) (w : World) : World :=
  {| localStorage := localStorage w; href := href w; token := token w;
     editingAircraftId := editingAircraftId w; submitBtn := submitBtn w;
     elements := elements w; props := props w; alerts := f (alerts w);
     requests := requests w |}.

Definition set_requests (f : list Request -> list Request) (w : World) : World :=
  {| localStorage := localStorage w; href := href w; token := token w;
     editingAircraftId := editingAircraftId w; submitBtn := submitBtn w;
     elements := elements w; props := props w; alerts := alerts w;
     requests := f (requests w) |}.

(** *** Browser primitives on the page *)

Definition alert (msg : string) : World -> World :=
  set_alerts (fun l => l ++ [msg]).

(** [window.location.href = target] *)
Definition navigate (target : string) : World -> World := set_href target.

Definition getItem (k : string) (w : World) : option string :=
  localStorage w !! k.

Definition setItem (k v : string) : World -> World :=
  set_localStorage (insert k v).

Definition removeItem (k : string) : World -> World :=
  set_localStorage (delete k).

(** [fetch(...)]: the call goes out. *)
Definition fetch (r : Request) : World -> World :=
  set_requests (fun l => l ++ [r]).

(** A property of the element with the given id.  Elements the scripts
    dereference without a null check are taken to be in the page; a
    property never written reads as the empty string. *)
Definition getProp (id prop : string) (w : World) : string :=
  default "" (props w !! (id, prop)).

Definition setProp (id prop v : string) : World -> World :=
  set_props (insert (id, prop) v).

(** [document.getElementById(id).value] *)
Definition value (id : string) (w : World) : string := getProp id "value" w.

(** The write behind [if (el) el.prop = v]. *)
Definition setProp_if_present (id prop v : string) (w : World) : World :=
  if bool_decide (id ∈ elements w) then setProp id prop v w else w.

(** [submitBtn.disabled = true; submitBtn.textContent = caption] *)
Definition busy (caption : string) : World -> World :=
  set_submitBtn {| disabled := true; textContent := caption |}.

(** [submitBtn.disabled = false; submitBtn.textContent = originalText] *)
Definition restore (originalText : string) : World -> World :=
  set_submitBtn {| disabled := false; textContent := originalText |}.

(** [`Bearer ${token}`] *)
Definition bearer (w : World) : string := "Bearer " +:+ null_string (token w).

(** What a handler leaves: the page and the calls it is now waiting on. *)
Definition outcome : Type := World * list call.

Definition done (w : World) : outcome := (w, []).

(** [try { ... } finally { f }], and a statement [f] that follows a
    [try]/[catch]: [f] runs on the page the block leaves. *)
Definition finally (f : World -> World) (o : outcome) : outcome := (f o.1, o.2).

(** *** Text helpers for the literals of the scripts *)

Definition LF : string := String (ascii_of_nat 10) "".
Definition dq : string := String (ascii_of_nat 34) "".

(** A double-quoted attribute value. *)
Definition q (s : string) : string := dq +:+ s +:+ dq.

(** The lines of a multi-line template literal. *)
Definition lines (l : list string) : string := String.concat LF l.

(** ** What the browser and the markup supply

    Serialisation, date formatting and the form constraints of the HTML are
    not in the scripts. *)
Class Browser := {
  (** [JSON.stringify] of a user object *)
  JSON_stringify : User.t -> string;
  (** [JSON.parse] of a stored user: the object, or the parser's message *)
  JSON_parse : string -> parsed User.t;
  (** [new Date(s).toLocaleDateString('en-US', {year, month: 'long', day})] *)
  toLocaleDateString : string -> string;
  (** [new Date(s).toLocaleString('en-US', {..., month: 'long', hour, minute})] *)
  toLocaleString_long : string -> string;
  (** [new Date(s).toLocaleString('en-US', {..., month: 'short', hour, minute})] *)
  toLocaleString_short : string -> string;
  (** [n.toLocaleString()] *)
  number_toLocaleString : Number -> string;
  (** the data URL a [FileReader] hands to [onload] *)
  readAsDataURL : File.t -> string;
  (** [aircraftForm.checkValidity()] against the constraints of the markup *)
  checkValidity : World -> bool;
  (** [aircraftForm.reset()]: the fields go back to the values of the markup *)
  formReset : gmap (string * string) string -> gmap (string * string) string
}.

(** The session-expiry statements, as written out in [loadProfile] of the
    profile page and of the dashboard and in the profile form. *)
Definition sessionExpired (w : World) : World :=
  let w := alert "⚠️ Session expired. Please login again." w in
  let w := removeItem "access_token" w in
  let w := removeItem "user" w in
  navigate "/login" w.

(** ** Forgot password *)

Module ForgotPasswordPage.

Definition forgotPasswordForm_submit (w : World) : outcome :=
  let email := trim (value "email" w) in
  if bool_decide (email = "") then
    done (alert "❌ Please enter your email address!" w)
  else
    let originalText := textContent (submitBtn w) in
    let w := busy "Sending..." w in
    let w := fetch {| method := "POST"; url := "/api/forgot-password";
                      content_json := true; authorization := None;
                      body := EmailBody email |} w in
    (w, [ForgotPassword originalText]).

Definition forgotPasswordForm_reply (originalText : string)
    (r : reply (option string)) (w : World) : outcome :=
  finally (restore originalText)
    match r with
    | Ok (Json message) =>
        let w := alert ("✅ " +:+ undefined_string message +:+ LF +:+ LF +:+
          "Please check your email (or terminal console in development mode) for the password reset link.") w in
        done (setProp "email" "value" "" w)
    | NotOk _ (Json detail) =>
        done (alert ("❌ Error: " +:+ str_or detail "Failed to send reset email") w)
    | Rejected msg | Ok (SyntaxError msg) | NotOk _ (SyntaxError msg) =>
        done (alert ("❌ Network error: " +:+ msg) w)
    end.

End ForgotPasswordPage.

(** ** Login *)

Module LoginPage.
Section WithBrowser.
Context `{Browser}.

Definition loginForm_submit (w : World) : outcome :=
  let email := trim (value "email" w) in
  let password := value "password" w in
  if bool_decide (email = "") || bool_decide (password = "") then
    done (alert "❌ Please fill in all fields!" w)
  else
    let originalText := textContent (submitBtn w) in
    let w := busy "Logging in..." w in
    let w := fetch {| method := "POST"; url := "/api/login";
                      content_json := true; authorization := None;
                      body := LoginBody email password |} w in
    (w, [Login originalText]).

Definition loginForm_reply (originalText : string)
    (r : reply LoginData) (w : World) : outcome :=
  match r with
  | Ok (Json data) =>
      let w := setItem "access_token" (access_token data) w in
      let w := setItem "user" (JSON_stringify (user data)) w in
      let w := alert ("✅ Login successful! Welcome back, " +:+
                      User.full_name (user data) +:+ "!") w in
      done (navigate "/dashboard" w)
  | NotOk _ (Json detail) =>
      let w := alert ("❌ Error: " +:+ str_or detail "Invalid email or password") w in
      done (restore originalText w)
  | Rejected msg | Ok (SyntaxError msg) | NotOk _ (SyntaxError msg) =>
      let w := alert ("❌ Network error: " +:+ msg +:+ LF +:+ LF +:+
                      "Please check your connection and try again.") w in
      done (restore originalText w)
  end.

End WithBrowser.
End LoginPage.

(** ** Registration *)

Module RegisterPage.

Definition registerForm_submit (w : World) : outcome :=
  let email := trim (value "email" w) in
  let full_name := trim (value "fullName" w) in
  let password := value "password" w in
  let phone := str_or_null (trim (value "phone" w)) in
  let role := value "role" w in
  if (js_length password <? 6)%nat then
    done (alert "❌ Password must be at least 6 characters long!" w)
  else if (js_length full_name <? 2)%nat then
    done (alert "❌ Please enter a valid full name!" w)
  else
    let originalText := textContent (submitBtn w) in
    let w := busy "Creating Account..." w in
    let w := fetch {| method := "POST"; url := "/api/register";
                      content_json := true; authorization := None;
                      body := RegisterBody email full_name password phone role |} w in
    (w, [Register originalText]).

Definition registerForm_reply (originalText : string)
    (r : reply unit) (w : World) : outcome :=
  match r with
  | Ok (Json _) =>
      let w := alert "✅ Registration successful! You can now login." w in
      done (navigate "/login" w)
  | NotOk _ (Json detail) =>
      let w := alert ("❌ Error: " +:+
                      str_or detail "Registration failed. Please try again.") w in
      done (restore originalText w)
  | Rejected msg | Ok (SyntaxError msg) | NotOk _ (SyntaxError msg) =>
      let w := alert ("❌ Network error: " +:+ msg +:+ LF +:+ LF +:+
                      "Please check your connection and try again.") w in
      done (restore originalText w)
  end.

End RegisterPage.

(** ** Reset password *)

Module ResetPasswordPage.

(** The top of the script: [token] is the [token] parameter of the URL. *)
Definition load (urlToken : option string) (w : World) : outcome :=
  let w := set_token urlToken w in
  if truthy urlToken then done w
  else
    let w := alert "❌ Invalid reset link. Please request a new password reset." w in
    done (navigate "/forgot-password" w).

Definition resetPasswordForm_submit (w : World) : outcome :=
  let password := value "password" w in
  let confirmPassword := value "confirmPassword" w in
  if (js_length password <? 6)%nat then
    done (alert "❌ Password must be at least 6 characters long!" w)
  else if negb (bool_decide (password = confirmPassword)) then
    done (alert "❌ Passwords do not match!" w)
  else
    let originalText := textContent (submitBtn w) in
    let w := busy "Resetting..." w in
    let w := fetch {| method := "POST"; url := "/api/reset-password";
                      content_json := true; authorization := None;
                      body := ResetBody (token w) password |} w in
    (w, [ResetPassword originalText]).

Definition resetPasswordForm_reply (originalText : string)
    (r : reply (option string)) (w : World) : outcome :=
  match r with
  | Ok (Json message) =>
      let w := alert ("✅ " +:+ undefined_string message) w in
      done (navigate "/login" w)
  | NotOk _ (Json detail) =>
      let w := alert ("❌ Error: " +:+ str_or detail "Password reset failed") w in
      done (restore originalText w)
  | Rejected msg | Ok (SyntaxError msg) | NotOk _ (SyntaxError msg) =>
      let w := alert ("❌ Network error: " +:+ msg) w in
      done (restore originalText w)
  end.

End ResetPasswordPage.

(** ** Profile page *)

Module ProfilePage.
Section WithBrowser.
Context `{Browser}.

(** The part of [loadProfile] up to its [await]. *)
Definition loadProfile (w : World) : outcome :=
  let w := fetch {| method := "GET"; url := "/api/profile";
                    content_json := false; authorization := Some (bearer w);
                    body := NoBody |} w in
  (w, [ProfilePageLoad]).

(** The banner with the link that resends the verification e-mail,
    inserted in the card; it is kept as a property of the card. *)
Definition verificationAlert : string :=
  "⚠️ Your email is not verified. <a href=" +:+ q "#" +:+ " id=" +:+
  q "resendVerification" +:+ ">Resend verification email</a>".

Definition loadProfile_reply (r : reply User.t) (w : World) : outcome :=
  match r with
  | Ok (Json u) =>
      let w := setProp "fullName" "value" (str_or (Some (User.full_name u)) "") w in
      let w := setProp "phone" "value" (str_or (User.phone u) "") w in
      let w :=
        if truthy (User.profile_photo u) then
          let w := setProp "currentPhoto" "src" (str_or (User.profile_photo u) "") w in
          let w := setProp "photoPreview" "display" "block" w in
          setProp "deletePhotoBtn" "display" "inline-block" w
        else w in
      let w :=
        if negb (User.is_verified u) then
          let w := setProp "card" "verificationAlert" verificationAlert w in
          setProp "resendVerification" "email" (User.email u) w
        else w in
      done w
  | NotOk status _ =>
      if status =? 401 then done (sessionExpired w)
      else done (alert "❌ Error loading profile data" w)
  | Rejected _ | Ok (SyntaxError _) =>
      done (alert "❌ Error loading profile data" w)
  end.

(** The top of the script: the guard, then (at its end) [loadProfile()]. *)
Definition load (w : World) : outcome :=
  let w := set_token (getItem "access_token" w) w in
  let w :=
    if truthy (token w) then w
    else navigate "/login" (alert "⚠️ Please login first!" w) in
  loadProfile w.

Definition resendVerification (email : string) (w : World) : outcome :=
  let w := fetch {| method := "POST"; url := "/api/resend-verification";
                    content_json := true; authorization := None;
                    body := EmailBody email |} w in
  (w, [ResendVerification]).

Definition resendVerification_reply (r : reply (option string)) (w : World)
    : outcome :=
  match r with
  | Ok (Json message) =>
      done (alert ("✅ " +:+ undefined_string message +:+ LF +:+ LF +:+
                   "Please check your email (or terminal console).") w)
  | NotOk _ (Json detail) =>
      done (alert ("❌ Error: " +:+ str_or detail "Failed to resend verification") w)
  | Rejected msg | Ok (SyntaxError msg) | NotOk _ (SyntaxError msg) =>
      done (alert ("❌ Failed to resend verification email: " +:+ msg) w)
  end.

(** Click on the link of the banner. *)
Definition resendVerification_click (w : World) : outcome :=
  resendVerification (getProp "resendVerification" "email" w) w.

Definition profileForm_submit (w : World) : outcome :=
  let full_name := trim (value "fullName" w) in
  let phone := str_or_null (trim (value "phone" w)) in
  let password := value "password" w in
  if negb (bool_decide (password = "")) && (js_length password <? 6)%nat then
    done (alert "❌ Password must be at least 6 characters long!" w)
  else
    let updateData_password :=
      if negb (bool_decide (password = "")) then Some password else None in
    if negb (bool_decide (full_name = "")) && (js_length full_name <? 2)%nat then
      done (alert "❌ Please enter a valid full name!" w)
    else
      let originalText := textContent (submitBtn w) in
      let w := busy "Updating..." w in
      let w := fetch {| method := "PUT"; url := "/api/profile";
                        content_json := true; authorization := Some (bearer w);
                        body := ProfileBody full_name phone updateData_password |} w in
      (w, [ProfileUpdate originalText full_name]).

(** The 2xx branch of the profile form.  [JSON.parse] may throw: the
    [catch] of the handler then shows its message. *)
Definition profileForm_updated (full_name : string) (w : World) : outcome :=
  let w := alert "✅ Profile updated successfully!" w in
  let w := setProp "password" "value" "" w in
  let storedUser := getItem "user" w in
  if truthy storedUser then
    match JSON_parse (str_or storedUser "") with
    | Json u =>
        let u :=
          if negb (bool_decide (full_name = "")) then
            {| User.email := User.email u; User.full_name := full_name;
               User.role := User.role u; User.phone := User.phone u;
               User.profile_photo := User.profile_photo u;
               User.is_verified := User.is_verified u;
               User.created_at := User.created_at u;
               User.last_login := User.last_login u |}
          else u in
        let w := setItem "user" (JSON_stringify u) w in
        loadProfile w
    | SyntaxError msg => done (alert ("❌ Network error: " +:+ msg) w)
    end
  else loadProfile w.

Definition profileForm_reply (originalText full_name : string)
    (r : reply unit) (w : World) : outcome :=
  finally (restore originalText)
    match r with
    | Ok (Json _) => profileForm_updated full_name w
    | NotOk status (Json detail) =>
        if status =? 401 then done (sessionExpired w)
        else done (alert ("❌ Error: " +:+
                          str_or detail "Update failed. Please try again.") w)
    | Rejected msg | Ok (SyntaxError msg) | NotOk _ (SyntaxError msg) =>
        done (alert ("❌ Network error: " +:+ msg) w)
    end.

Definition allowedTypes : list string :=
  ["image/jpeg"; "image/jpg"; "image/png"; "image/webp"].

(** [change] on the photo input; [file] is [e.target.files[0]].  The
    reader's [onload] is run at once. *)
Definition photoInput_change (file : option File.t) (w : World) : outcome :=
  match file with
  | None => done w
  | Some f =>
      if negb (includes allowedTypes (File.type f)) then
        let w := alert "❌ Please upload a valid image file (JPEG, PNG, WEBP)" w in
        done (setProp "photoInput" "value" "" w)
      else if File.size f >? 5 * 1024 * 1024 then
        let w := alert "❌ File size must be less than 5MB" w in
        done (setProp "photoInput" "value" "" w)
      else
        let w := setProp "currentPhoto" "src" (readAsDataURL f) w in
        let w := setProp "photoPreview" "display" "block" w in
        let w := fetch {| method := "POST"; url := "/api/upload-photo";
                          content_json := false; authorization := Some (bearer w);
                          body := FormDataBody f |} w in
        (w, [UploadPhoto])
  end.

Definition photoInput_reply (r : reply (option string)) (w : World) : outcome :=
  finally (setProp "photoInput" "value" "")
    match r with
    | Ok (Json message) =>
        let w := alert ("✅ " +:+ undefined_string message) w in
        done (setProp "deletePhotoBtn" "display" "inline-block" w)
    | NotOk _ (Json detail) =>
        let w := alert ("❌ Error: " +:+ str_or detail "Upload failed") w in
        loadProfile w
    | Rejected msg | Ok (SyntaxError msg) | NotOk _ (SyntaxError msg) =>
        let w := alert ("❌ Upload error: " +:+ msg) w in
        loadProfile w
    end.

(** [confirmed] is the answer to the [confirm] box. *)
Definition deletePhotoBtn_click (confirmed : bool) (w : World) : outcome :=
  if negb confirmed then done w
  else
    let w := fetch {| method := "DELETE"; url := "/api/delete-photo";
                      content_json := false; authorization := Some (bearer w);
                      body := NoBody |} w in
    (w, [DeletePhoto]).

Definition deletePhotoBtn_reply (r : reply (option string)) (w : World)
    : outcome :=
  match r with
  | Ok (Json message) =>
      let w := alert ("✅ " +:+ undefined_string message) w in
      let w := setProp "currentPhoto" "src"
                 "https://via.placeholder.com/150?text=No+Photo" w in
      done (setProp "deletePhotoBtn" "display" "none" w)
  | NotOk _ (Json detail) =>
      done (alert ("❌ Error: " +:+ str_or detail "Delete failed") w)
  | Rejected msg | Ok (SyntaxError msg) | NotOk _ (SyntaxError msg) =>
      done (alert ("❌ Error: " +:+ msg) w)
  end.

Definition logoutBtn_click (confirmed : bool) (w : World) : outcome :=
  if confirmed then
    let w := fetch {| method := "POST"; url := "/api/logout";
                      content_json := false; authorization := Some (bearer w);
                      body := NoBody |} w in
    (w, [ProfileLogout])
  else done w.

(** After the [try]/[catch] around the call: the reply is not looked at. *)
Definition logoutBtn_reply (r : reply unit) (w : World) : outcome :=
  let w := removeItem "access_token" w in
  let w := removeItem "user" w in
  let w := alert "✅ Logged out successfully!" w in
  done (navigate "/" w).

End WithBrowser.
End ProfilePage.

(** ** Dashboard *)

Module DashboardPage.
Section WithBrowser.
Context `{Browser}.

Definition loadProfile (w : World) : outcome :=
  let w := fetch {| method := "GET"; url := "/api/profile";
                    content_json := false; authorization := Some (bearer w);
                    body := NoBody |} w in
  (w, [DashboardLoad]).

(** The [userInfo] template literal. *)
Definition userInfo (u : User.t) : string :=
  let createdDate :=
    if truthy (User.created_at u)
    then toLocaleDateString (str_or (User.created_at u) "") else "N/A" in
  let lastLoginDate :=
    if truthy (User.last_login u)
    then toLocaleString_long (str_or (User.last_login u) "")
    else "First time login" in
  lines [
      "";
      "                <div style=" +:+ q "padding: 1rem 0;" +:+ ">";
      "                    " +:+
      (if truthy (User.profile_photo u) then lines [
      "";
      "                        <div style=" +:+ q "text-align: center; margin-bottom: 1.5rem;" +:+ ">";
      "                            <img src=" +:+ q (str_or (User.profile_photo u) "") +:+ " alt=" +:+ q "Profile Photo" +:+ " style=" +:+ q "width: 100px; height: 100px; border-radius: 50%; object-fit: cover; border: 3px solid #667eea; box-shadow: 0 4px 10px rgba(0,0,0,0.2);" +:+ ">";
      "                        </div>";
      "                    " ] else "");
      "                    <p style=" +:+ q "margin-bottom: 0.8rem;" +:+ ">";
      "                        <strong style=" +:+ q "color: #667eea;" +:+ ">📧 Email:</strong> ";
      "                        <span style=" +:+ q "color: #666;" +:+ ">" +:+ User.email u +:+ "</span>";
      "                    </p>";
      "                    <p style=" +:+ q "margin-bottom: 0.8rem;" +:+ ">";
      "                        <strong style=" +:+ q "color: #667eea;" +:+ ">👤 Role:</strong> ";
      "                        <span style=" +:+ q "color: #666; text-transform: capitalize;" +:+ ">" +:+ User.role u +:+ "</span>";
      "                    </p>";
      "                    <p style=" +:+ q "margin-bottom: 0.8rem;" +:+ ">";
      "                        <strong style=" +:+ q "color: #667eea;" +:+ ">📱 Phone:</strong> ";
      "                        <span style=" +:+ q "color: #666;" +:+ ">" +:+ str_or (User.phone u) "Not provided" +:+ "</span>";
      "                    </p>";
      "                    <p style=" +:+ q "margin-bottom: 0.8rem;" +:+ ">";
      "                        <strong style=" +:+ q "color: #667eea;" +:+ ">✅ Verified:</strong> ";
      "                        <span style=" +:+ q ("color: " +:+ (if User.is_verified u then "#28a745" else "#dc3545") +:+ ";") +:+ ">" +:+ (if User.is_verified u then "✓ Yes" else "✗ No") +:+ "</span>";
      "                    </p>";
      "                    <p style=" +:+ q "margin-bottom: 0.8rem;" +:+ ">";
      "                        <strong style=" +:+ q "color: #667eea;" +:+ ">📅 Member Since:</strong> ";
      "                        <span style=" +:+ q "color: #666;" +:+ ">" +:+ createdDate +:+ "</span>";
      "                    </p>";
      "                    <p style=" +:+ q "margin-bottom: 0;" +:+ ">";
      "                        <strong style=" +:+ q "color: #667eea;" +:+ ">🕒 Last Login:</strong> ";
      "                        <span style=" +:+ q "color: #666;" +:+ ">" +:+ lastLoginDate +:+ "</span>";
      "                    </p>";
      "                </div>";
      "            " ].

Definition profileError : string :=
  "<p style=" +:+ q "color: #dc3545;" +:+ ">Error loading profile</p>".

Definition loadProfile_reply (r : reply User.t) (w : World) : outcome :=
  match r with
  | Ok (Json u) =>
      let w := setProp "userName" "textContent" (User.full_name u) w in
      done (setProp "userInfo" "innerHTML" (userInfo u) w)
  | NotOk status _ =>
      if status =? 401 then done (sessionExpired w)
      else done (setProp "userInfo" "innerHTML" profileError w)
  | Rejected _ | Ok (SyntaxError _) =>
      done (setProp "userInfo" "innerHTML" profileError w)
  end.

Definition loadActivityLogs (w : World) : outcome :=
  let w := fetch {| method := "GET"; url := "/api/activity-logs";
                    content_json := false; authorization := Some (bearer w);
                    body := NoBody |} w in
  (w, [ActivityLogs]).

Definition noActivity : string :=
  "<p style=" +:+ q "text-align: center; color: #999;" +:+ ">No recent activity</p>".

Definition logsError : string :=
  "<p style=" +:+ q "color: #dc3545;" +:+ ">Error loading activity logs</p>".

(** The template of one log entry. *)
Definition activityItem (log : Log.t) : string :=
  let timestamp := toLocaleString_short (Log.timestamp log) in
  lines [
      "";
      "                    <div class=" +:+ q "activity-item" +:+ ">";
      "                        <strong>" +:+ Log.action log +:+ "</strong>";
      "                        <p>" +:+ str_or (Log.details log) "No details available" +:+ "</p>";
      "                        <small>🕒 " +:+ timestamp +:+ " | 📍 " +:+ str_or (Log.ip_address log) "Unknown" +:+ "</small>";
      "                    </div>";
      "                " ].

(** What [loadActivityLogs] writes into [#activityLogs] for a fetched list. *)
Definition logsHtml (logs : list Log.t) : string :=
  if bool_decide (length logs = 0%nat) then noActivity
  else String.concat "" (map activityItem logs).

Definition loadActivityLogs_reply (r : reply (list Log.t)) (w : World)
    : outcome :=
  match r with
  | Ok (Json logs) => done (setProp "activityLogs" "innerHTML" (logsHtml logs) w)
  | NotOk _ _ | Rejected _ | Ok (SyntaxError _) =>
      done (setProp "activityLogs" "innerHTML" logsError w)
  end.

Definition logoutBtn_click (confirmed : bool) (w : World) : outcome :=
  if confirmed then
    let w := fetch {| method := "POST"; url := "/api/logout";
                      content_json := false; authorization := Some (bearer w);
                      body := NoBody |} w in
    (w, [DashboardLogout])
  else done w.

Definition logoutBtn_reply (r : reply unit) (w : World) : outcome :=
  let w := removeItem "access_token" w in
  let w := removeItem "user" w in
  let w := alert "✅ Logged out successfully!" w in
  done (navigate "/" w).

(** The top of the script: the guard; at its end both loaders start. *)
Definition load (w : World) : outcome :=
  let w := set_token (getItem "access_token" w) w in
  let w :=
    if truthy (token w) then w
    else navigate "/login" (alert "⚠️ Please login first!" w) in
  let '(w, p1) := loadProfile w in
  let '(w, p2) := loadActivityLogs w in
  (w, p1 ++ p2).

End WithBrowser.
End DashboardPage.

(** ** Aircraft administration *)

Module AircraftPage.
Section WithBrowser.
Context `{Browser}.

Definition API_URL : string := "http://127.0.0.1:8000/api".

(** Truthiness of [editingAircraftId]: [null] and [0] are falsy. *)
Definition editing (w : World) : bool :=
  match editingAircraftId w with
  | Some i => negb (i =? 0)
  | None => false
  end.

(** The fields whose [input] event runs [calculateTotalSeats]. *)
Definition seatFields : list string :=
  ["economy_seats"; "business_seats"; "first_class_seats"].

Definition calculateTotalSeats (w : World) : World :=
  let economy := num_or_zero (parseInt (value "economy_seats" w)) in
  let business := num_or_zero (parseInt (value "business_seats" w)) in
  let first := num_or_zero (parseInt (value "first_class_seats" w)) in
  let total := num_add (num_add economy business) first in
  setProp_if_present "totalSeatsCalc" "textContent" (Number_toString total) w.

Definition loadAircraft (w : World) : outcome :=
  let w := fetch {| method := "GET"; url := API_URL +:+ "/flights/aircraft";
                    content_json := false; authorization := None;
                    body := NoBody |} w in
  (w, [LoadAircraft]).

(** The fragment shown when loading fails. *)
Definition loadError (message : string) : string :=
  lines [
    "";
    "            <div class=" +:+ q "empty-state" +:+ ">";
    "                <div class=" +:+ q "empty-state-icon" +:+ ">❌</div>";
    "                <p>Error loading aircraft: " +:+ message +:+ "</p>";
    "            </div>";
    "        " ].

(** The fragment shown for an empty list. *)
Definition emptyState : string :=
  lines [
    "";
    "            <div class=" +:+ q "empty-state" +:+ ">";
    "                <div class=" +:+ q "empty-state-icon" +:+ ">✈️</div>";
    "                <p>No aircraft found. Click " +:+ q "Add New Aircraft" +:+ " to add one.</p>";
    "            </div>";
    "        " ].

(** [aircraft.manufacturing_year || ''] for the field of the form. *)
Definition year_or_empty (y : option Z) : string :=
  match y with
  | Some n => if n =? 0 then "" else show n
  | None => ""
  end.

(** [a.manufacturing_year || 'N/A'] inside the template. *)
Definition year_or_NA (y : option Z) : string :=
  match y with
  | Some n => if n =? 0 then "N/A" else show n
  | None => "N/A"
  end.

(** The card of one aircraft. *)
Definition aircraftCard (a : Aircraft.t) : string :=
  lines [
    "";
    "        <div class=" +:+ q "aircraft-card" +:+ ">";
    "            <div class=" +:+ q "aircraft-header" +:+ ">";
    "                <div class=" +:+ q "aircraft-number" +:+ ">" +:+ Aircraft.aircraft_number a +:+ "</div>";
    "                <div class=" +:+ q ("aircraft-status status-" +:+ Aircraft.status a) +:+ ">" +:+ Aircraft.status a +:+ "</div>";
    "            </div>";
    "            <div class=" +:+ q "aircraft-info" +:+ ">";
    "                <div class=" +:+ q "info-row" +:+ ">";
    "                    <span class=" +:+ q "info-label" +:+ ">Manufacturer</span>";
    "                    <span class=" +:+ q "info-value" +:+ ">" +:+ Aircraft.manufacturer a +:+ "</span>";
    "                </div>";
    "                <div class=" +:+ q "info-row" +:+ ">";
    "                    <span class=" +:+ q "info-label" +:+ ">Model</span>";
    "                    <span class=" +:+ q "info-value" +:+ ">" +:+ Aircraft.model a +:+ "</span>";
    "                </div>";
    "                <div class=" +:+ q "info-row" +:+ ">";
    "                    <span class=" +:+ q "info-label" +:+ ">Year</span>";
    "                    <span class=" +:+ q "info-value" +:+ ">" +:+ year_or_NA (Aircraft.manufacturing_year a) +:+ "</span>";
    "                </div>";
    "                <div class=" +:+ q "info-row" +:+ ">";
    "                    <span class=" +:+ q "info-label" +:+ ">Total Capacity</span>";
    "                    <span class=" +:+ q "info-value" +:+ ">" +:+ show (Aircraft.total_seats a) +:+ " seats</span>";
    "                </div>";
    "            </div>";
    "            <div class=" +:+ q "seat-breakdown" +:+ ">";
    "                <div class=" +:+ q "seat-type" +:+ ">";
    "                    <div class=" +:+ q "seat-type-label" +:+ ">Economy</div>";
    "                    <div class=" +:+ q "seat-type-value" +:+ ">" +:+ show (Aircraft.economy_seats a) +:+ "</div>";
    "                </div>";
    "                <div class=" +:+ q "seat-type" +:+ ">";
    "                    <div class=" +:+ q "seat-type-label" +:+ ">Business</div>";
    "                    <div class=" +:+ q "seat-type-value" +:+ ">" +:+ show (Aircraft.business_seats a) +:+ "</div>";
    "                </div>";
    "                <div class=" +:+ q "seat-type" +:+ ">";
    "                    <div class=" +:+ q "seat-type-label" +:+ ">First</div>";
    "                    <div class=" +:+ q "seat-type-value" +:+ ">" +:+ show (Aircraft.first_class_seats a) +:+ "</div>";
    "                </div>";
    "            </div>";
    "            <div class=" +:+ q "aircraft-actions" +:+ ">";
    "                <button class=" +:+ q "btn btn-warning btn-small" +:+ " style=" +:+ q "flex: 1;" +:+ " onclick=" +:+ q ("editAircraft(" +:+ show (Aircraft.id a) +:+ ")") +:+ ">Edit</button>";
    "                <button class=" +:+ q "btn btn-secondary btn-small" +:+ " onclick=" +:+ q ("changeStatus(" +:+ show (Aircraft.id a) +:+ ", '" +:+ Aircraft.status a +:+ "')") +:+ ">Change Status</button>";
    "            </div>";
    "        </div>";
    "    " ].

(** What [displayAircraft] assigns to [grid.innerHTML]. *)
Definition gridHtml (aircraft : list Aircraft.t) : string :=
  if bool_decide (length aircraft = 0%nat) then emptyState
  else String.concat "" (map aircraftCard aircraft).

Definition displayAircraft (aircraft : list Aircraft.t) (w : World) : World :=
  if negb (bool_decide ("aircraftGrid" ∈ elements w)) then w
  else setProp "aircraftGrid" "innerHTML" (gridHtml aircraft) w.

Definition updateStats (aircraft : list Aircraft.t) (w : World) : World :=
  let total := Z.of_nat (length aircraft) in
  let active := Z.of_nat (length
    (filter (fun a => Aircraft.status a = "active") aircraft)) in
  let totalSeats :=
    foldl (fun sum a => num_add sum (json_number (Aircraft.total_seats a)))
      (Num 0) aircraft in
  let w := setProp_if_present "totalAircraft" "textContent" (pretty total) w in
  let w := setProp_if_present "activeAircraft" "textContent" (pretty active) w in
  setProp_if_present "totalSeats" "textContent" (number_toLocaleString totalSeats) w.

Definition loadAircraft_reply (r : reply (list Aircraft.t)) (w : World)
    : outcome :=
  match r with
  | Ok (Json aircraft) => done (updateStats aircraft (displayAircraft aircraft w))
  | NotOk _ _ =>
      done (setProp "aircraftGrid" "innerHTML" (loadError "Failed to load aircraft") w)
  | Rejected msg | Ok (SyntaxError msg) =>
      done (setProp "aircraftGrid" "innerHTML" (loadError msg) w)
  end.

(** The top of the script and the [DOMContentLoaded] listener. *)
Definition load (w : World) : outcome :=
  let w := set_token (getItem "access_token" w) w in
  let w :=
    if truthy (token w) then w
    else navigate "/login" (alert "⚠️ Please login first!" w) in
  let w := set_editingAircraftId None w in
  loadAircraft w.

Definition openCreateModal (w : World) : World :=
  let w := set_editingAircraftId None w in
  let w := setProp "modalTitle" "textContent" "Add New Aircraft" w in
  let w := set_props formReset w in
  let w := setProp "aircraft_number" "disabled" "false" w in
  let w := calculateTotalSeats w in
  setProp "aircraftModal" "display" "block" w.

Definition editAircraft (id : Z) (w : World) : outcome :=
  let w := fetch {| method := "GET";
                    url := API_URL +:+ "/flights/aircraft/" +:+ show id;
                    content_json := false; authorization := None;
                    body := NoBody |} w in
  (w, [EditAircraft id]).

Definition editAircraft_reply (id : Z) (r : reply Aircraft.t) (w : World)
    : outcome :=
  match r with
  | Ok (Json a) =>
      let w := set_editingAircraftId (Some id) w in
      let w := setProp "modalTitle" "textContent" "Edit Aircraft" w in
      let w := setProp "aircraft_number" "value" (Aircraft.aircraft_number a) w in
      let w := setProp "aircraft_number" "disabled" "true" w in
      let w := setProp "manufacturer" "value" (Aircraft.manufacturer a) w in
      let w := setProp "model" "value" (Aircraft.model a) w in
      let w := setProp "manufacturing_year" "value"
                 (year_or_empty (Aircraft.manufacturing_year a)) w in
      let w := setProp "economy_seats" "value" (show (Aircraft.economy_seats a)) w in
      let w := setProp "business_seats" "value" (show (Aircraft.business_seats a)) w in
      let w := setProp "first_class_seats" "value" (show (Aircraft.first_class_seats a)) w in
      let w := setProp "status" "value" (Aircraft.status a) w in
      let w := calculateTotalSeats w in
      done (setProp "aircraftModal" "display" "block" w)
  | NotOk _ _ =>
      done (alert ("Error loading aircraft details: " +:+ "Failed to load aircraft") w)
  | Rejected msg | Ok (SyntaxError msg) =>
      done (alert ("Error loading aircraft details: " +:+ msg) w)
  end.

Definition showLoading : World -> World :=
  setProp_if_present "loadingOverlay" "display" "flex".

Definition hideLoading : World -> World :=
  setProp_if_present "loadingOverlay" "display" "none".

Definition closeModal : World -> World :=
  setProp "aircraftModal" "display" "none".

Definition statuses : list string := ["active"; "maintenance"; "retired"].

(** [newStatus] is the answer to the [prompt] box, [None] when it is
    cancelled. *)
Definition changeStatus (id : Z) (currentStatus : string)
    (newStatus : option string) (w : World) : outcome :=
  if negb (truthy newStatus)
     || negb (includes statuses (toLowerCase (str_or newStatus ""))) then
    done (alert "Invalid status" w)
  else
    let w := showLoading w in
    let w := fetch {| method := "PUT";
                      url := API_URL +:+ "/flights/aircraft/" +:+ show id;
                      content_json := true; authorization := Some (bearer w);
                      body := StatusBody (toLowerCase (str_or newStatus "")) |} w in
    (w, [ChangeStatus]).

Definition changeStatus_reply (r : reply unit) (w : World) : outcome :=
  finally hideLoading
    match r with
    | Ok _ =>
        let w := alert "Status updated successfully!" w in
        loadAircraft w
    | NotOk _ (Json detail) =>
        done (alert ("Error updating status: " +:+
                     str_or detail "Failed to update status") w)
    | Rejected msg | NotOk _ (SyntaxError msg) =>
        done (alert ("Error updating status: " +:+ msg) w)
    end.

(** The object [saveAircraft] sends. *)
Definition aircraftData (w : World) : AircraftData.t :=
  let economy := parseInt (value "economy_seats" w) in
  let business := parseInt (value "business_seats" w) in
  let first := parseInt (value "first_class_seats" w) in
  {| AircraftData.aircraft_number := value "aircraft_number" w;
     AircraftData.manufacturer := value "manufacturer" w;
     AircraftData.model := value "model" w;
     AircraftData.manufacturing_year :=
       num_or_null (parseInt (value "manufacturing_year" w));
     AircraftData.economy_seats := economy;
     AircraftData.business_seats := business;
     AircraftData.first_class_seats := first;
     AircraftData.total_seats := num_add (num_add economy business) first;
     AircraftData.status := value "status" w |}.

Definition saveAircraft (w : World) : outcome :=
  if negb (checkValidity w) then done w
  else
    let data := aircraftData w in
    let w := showLoading w in
    let url :=
      if editing w
      then API_URL +:+ "/flights/aircraft/" +:+
           show (default 0 (editingAircraftId w))
      else API_URL +:+ "/flights/aircraft" in
    let method := if editing w then "PUT" else "POST" in
    let w := fetch {| method := method; url := url;
                      content_json := true; authorization := Some (bearer w);
                      body := AircraftBody data |} w in
    (w, [SaveAircraft]).

Definition saveAircraft_reply (r : reply unit) (w : World) : outcome :=
  finally hideLoading
    match r with
    | Ok _ =>
        let w := alert (if editing w then "Aircraft updated successfully!"
                        else "Aircraft created successfully!") w in
        let w := closeModal w in
        loadAircraft w
    | NotOk _ (Json detail) =>
        done (alert ("Error: " +:+ str_or detail "Failed to save aircraft") w)
    | Rejected msg | NotOk _ (SyntaxError msg) =>
        done (alert ("Error: " +:+ msg) w)
    end.

Definition logout (w : World) : World :=
  let w := removeItem "access_token" w in
  let w := removeItem "user" w in
  navigate "/login" w.

End WithBrowser.
End AircraftPage.

(** ** The event loop *)

Section EventLoop.
Context `{Browser}.

(** What the user (or the browser, for a page load) can do. *)
Inductive action :=
| Input (id text : string)                (* typing into a field *)
| ForgotSubmit
| LoginSubmit
| RegisterSubmit
| ResetLoad (urlToken : option string)
| ResetSubmit
| ProfileLoad
| ProfileSubmit
| ResendClick
| PhotoChange (file : option File.t)
| DeletePhotoClick (confirmed : bool)
| ProfileLogoutClick (confirmed : bool)
| DashboardLoadPage
| DashboardLogoutClick (confirmed : bool)
| AircraftLoad
| SeatInput (id text : string)            (* typing, on the aircraft page *)
| OpenCreateModal
| EditClick (id : Z)
| ChangeStatusClick (id : Z) (currentStatus : string) (answer : option string)
| SaveClick
| CloseModal
| LogoutClick.

(** The synchronous part of the handler an action triggers. *)
Definition perform (a : action) (w : World) : outcome :=
  match a with
  | Input id text => done (setProp id "value" text w)
  | ForgotSubmit => ForgotPasswordPage.forgotPasswordForm_submit w
  | LoginSubmit => LoginPage.loginForm_submit w
  | RegisterSubmit => RegisterPage.registerForm_submit w
  | ResetLoad urlToken => ResetPasswordPage.load urlToken w
  | ResetSubmit => ResetPasswordPage.resetPasswordForm_submit w
  | ProfileLoad => ProfilePage.load w
  | ProfileSubmit => ProfilePage.profileForm_submit w
  | ResendClick => ProfilePage.resendVerification_click w
  | PhotoChange file => ProfilePage.photoInput_change file w
  | DeletePhotoClick confirmed => ProfilePage.deletePhotoBtn_click confirmed w
  | ProfileLogoutClick confirmed => ProfilePage.logoutBtn_click confirmed w
  | DashboardLoadPage => DashboardPage.load w
  | DashboardLogoutClick confirmed => DashboardPage.logoutBtn_click confirmed w
  | AircraftLoad => AircraftPage.load w
  | SeatInput id text =>
      let w := setProp id "value" text w in
      if includes AircraftPage.seatFields id && bool_decide (id ∈ elements w)
      then done (AircraftPage.calculateTotalSeats w)
      else done w
  | OpenCreateModal => done (AircraftPage.openCreateModal w)
  | EditClick id => AircraftPage.editAircraft id w
  | ChangeStatusClick id currentStatus answer =>
      AircraftPage.changeStatus id currentStatus answer w
  | SaveClick => AircraftPage.saveAircraft w
  | CloseModal => done (AircraftPage.closeModal w)
  | LogoutClick => done (AircraftPage.logout w)
  end.

(** The rest of a suspended handler, run when its reply arrives. *)
Definition resume (c : call) : reply (data c) -> World -> outcome :=
  match c with
  | ForgotPassword originalText =>
      ForgotPasswordPage.forgotPasswordForm_reply originalText
  | Login originalText => LoginPage.loginForm_reply originalText
  | Register originalText => RegisterPage.registerForm_reply originalText
  | ResetPassword originalText =>
      ResetPasswordPage.resetPasswordForm_reply originalText
  | ProfilePageLoad => ProfilePage.loadProfile_reply
  | ProfileUpdate originalText full_name =>
      ProfilePage.profileForm_reply originalText full_name
  | ResendVerification => ProfilePage.resendVerification_reply
  | UploadPhoto => ProfilePage.photoInput_reply
  | DeletePhoto => ProfilePage.deletePhotoBtn_reply
  | ProfileLogout => ProfilePage.logoutBtn_reply
  | DashboardLoad => DashboardPage.loadProfile_reply
  | ActivityLogs => DashboardPage.loadActivityLogs_reply
  | DashboardLogout => DashboardPage.logoutBtn_reply
  | LoadAircraft => AircraftPage.loadAircraft_reply
  | EditAircraft id => AircraftPage.editAircraft_reply id
  | ChangeStatus => AircraftPage.changeStatus_reply
  | SaveAircraft => AircraftPage.saveAircraft_reply
  end.

(** A handler run from its trigger to its end, the reply given. *)
Definition settle (c : call) (r : reply (data c)) (w : World) : World :=
  fst (resume c r w).

(** The page together with the calls in flight. *)
Record Machine := { page : World; inflight : list call }.

Inductive event :=
| Act (a : action)
| Arrive (i : nat) (c : call) (r : reply (data c)).

(** One turn of the event loop.  A reply can only arrive for a call that
    is in flight. *)
Definition step (e : event) (m : Machine) : option Machine :=
  match e with
  | Act a =>
      let '(w, new) := perform a (page m) in
      Some {| page := w; inflight := inflight m ++ new |}
  | Arrive i c r =>
      if bool_decide (inflight m !! i = Some c) then
        let '(w, new) := resume c r (page m) in
        Some {| page := w; inflight := delete i (inflight m) ++ new |}
      else None
  end.

Fixpoint run (es : list event) (m : Machine) : option Machine :=
  match es with
  | [] => Some m
  | e :: es' =>
      match step e m with
      | Some m' => run es' m'
      | None => None
      end
  end.

(** ** Predicates of the session contract *)

(** Both keys of the session are in the store, or neither is. *)
Definition paired (w : World) : Prop :=
  is_Some (getItem "access_token" w) <-> is_Some (getItem "user" w).

(** The store holds no session. *)
Definition cleared (w : World) : Prop :=
  getItem "access_token" w = None /\ getItem "user" w = None.

(** The calls that carry the bearer token. *)
Definition authenticated (c : call) : bool :=
  match c with
  | ProfilePageLoad | ProfileUpdate _ _ | UploadPhoto | DeletePhoto
  | ProfileLogout | DashboardLoad | ActivityLogs | DashboardLogout
  | ChangeStatus | SaveAircraft => true
  | _ => false
  end.

End EventLoop.

(** ** Words of the contract *)

(** A field made of decimal digits only. *)
Fixpoint all_digits (s : string) : bool :=
  match s with
  | String c r => is_digit c && all_digits r
  | EmptyString => true
  end.

(** An integer that a double holds exactly, as its neighbours are held
    ([Number.isSafeInteger]). *)
Definition safe (z : Z) : Prop := - 2 ^ 53 < z < 2 ^ 53.

(** A seat field as the form is meant to be read: it holds the
    non-negative integer [n], an empty field standing for 0. *)
Definition field_holds (s : string) (n : Z) : Prop :=
  (s = "" /\ n = 0) \/ (0 <= n /\ s = pretty n).


(** The six forms and the action that submits each. *)
Inductive form :=
| ForgotForm | LoginForm | RegisterForm | ResetForm | ProfileForm | AircraftForm.

Definition submit (f : form) : action :=
  match f with
  | ForgotForm => ForgotSubmit
  | LoginForm => LoginSubmit
  | RegisterForm => RegisterSubmit
  | ResetForm => ResetSubmit
  | ProfileForm => ProfileSubmit
  | AircraftForm => SaveClick
  end.

(** The authenticated calls whose continuation tests for status 401. *)
Definition checks_401 (c : call) : bool :=
  match c with
  | ProfilePageLoad | DashboardLoad | ProfileUpdate _ _ => true
  | _ => false
  end.

(** The four ways the scripts write the store. *)
Inductive store_write (s : gmap string string) : gmap string string -> Prop :=
| untouched : store_write s s
| signed_on t u : store_write s (<["user" := u]> (<["access_token" := t]> s))
| signed_off : store_write s (delete "user" (delete "access_token" s))
| user_rewritten u :
    is_Some (s !! "user") -> store_write s (<["user" := u]> s).

(** ** A browser and pages for the examples

    Users are stored by their e-mail address, dates and numbers are shown
    as they are, and the markup puts no constraint on the aircraft form. *)
Definition plain_browser : Browser := {|
  JSON_stringify := fun u => "{" +:+ q "email" +:+ ":" +:+ q (User.email u) +:+ "}";
  JSON_parse := fun _ => SyntaxError "Unexpected token";
  toLocaleDateString := fun s => s;
  toLocaleString_long := fun s => s;
  toLocaleString_short := fun s => s;
  number_toLocaleString := Number_toString;
  readAsDataURL := fun f => "data:" +:+ File.type f +:+ ";base64,";
  checkValidity := fun _ => true;
  formReset := fun fields => fields
|}.

(** A page with an idle submit control and an empty store. *)
Definition blank : World := {|
  localStorage := ∅; href := "/"; token := None; editingAircraftId := None;
  submitBtn := {| disabled := false; textContent := "Submit" |};
  elements := {[ "aircraftGrid"; "loadingOverlay"; "totalSeatsCalc" ]};
  props := ∅; alerts := []; requests := []
|}.

(** The fields of a form filled in, left to right. *)
Definition filled (fields : list (string * string)) (w : World) : World :=
  foldl (fun w f => setProp f.1 "value" f.2 w) w fields.

(** The page of a signed-in user. *)
Definition signed_in : World :=
  set_token (Some "t0k3n")
    (setItem "user" "{}" (setItem "access_token" "t0k3n" blank)).

(** The seat fields of the aircraft form. *)
Definition seats (economy business first : string) : World :=
  filled [("economy_seats", economy); ("business_seats", business);
          ("first_class_seats", first)] signed_in.

(** Modelled from the spec: the markup of the aircraft form is not among
    the scripts.  The form has all fields required per its own declarative
    constraints: it is valid when none of its fields is empty. *)
Definition all_required (w : World) : bool :=
  forallb (fun f => negb (bool_decide (value f w = "")))
    [ "aircraft_number"; "manufacturer"; "model"; "manufacturing_year";
      "economy_seats"; "business_seats"; "first_class_seats"; "status" ].

(** A browser whose aircraft form has these constraints. *)
Definition strict_browser : Browser := {|
  JSON_stringify := fun u => "{" +:+ q "email" +:+ ":" +:+ q (User.email u) +:+ "}";
  JSON_parse := fun _ => SyntaxError "Unexpected token";
  toLocaleDateString := fun s => s;
  toLocaleString_long := fun s => s;
  toLocaleString_short := fun s => s;
  number_toLocaleString := Number_toString;
  readAsDataURL := fun f => "data:" +:+ File.type f +:+ ";base64,";
  checkValidity := all_required;
  formReset := fun fields => fields
|}.

(** The aircraft form filled in for a new record. *)
Definition new_aircraft (economy business first : string) : World :=
  filled [("aircraft_number", "SK-303"); ("manufacturer", "Airbus");
          ("model", "A350"); ("manufacturing_year", "2021");
          ("economy_seats", economy); ("business_seats", business);
          ("first_class_seats", first); ("status", "active")] signed_in.

Definition ada : User.t := {|
  User.email := "ada@skylink.test"; User.full_name := "Ada Byron";
  User.role := "customer"; User.phone := None; User.profile_photo := None;
  User.is_verified := true; User.created_at := None; User.last_login := None
|}.

(** The message of the password rule, the same on the three forms. *)
Definition password_too_short : string :=
  "❌ Password must be at least 6 characters long!".

(** The profile form with a name and no new password. *)
Definition profile_without_password : World :=
  filled [("fullName", "Ada Byron"); ("phone", ""); ("password", "")] signed_in.

(** The request carries an Authorization header exactly when the call it
    starts is one of the [authenticated] ones. *)
Definition carries_token (req : Request) (c : call) : Prop :=
  is_Some (authorization req) <-> authenticated c = true.

(** A fresh browser on the login page, and a successful login. *)
Definition start : Machine := {| page := blank; inflight := [] |}.

Definition login_trace : list event :=
  [ Act (Input "email" "ada@skylink.test");
    Act (Input "password" "secret1");
    Act LoginSubmit;
    Arrive 0 (Login "Submit")
      (Ok (Json {| access_token := "t0k3n"; user := ada |})) ].

(** ** Words of the further properties *)

(** A text made of members of [ps], one after the other. *)
Inductive run_of (ps : list string) : string -> Prop :=
  | run_of_none : run_of ps ""
  | run_of_more p s : p ∈ ps -> run_of ps s -> run_of ps (p +:+ s).

(** A field of white space only (the empty field included). *)
Definition white_space_only : string -> Prop := run_of whitespace.

(** The seats of a fleet, added up record by record. *)
Definition seat_total (l : list Aircraft.t) : Z :=
  foldr (fun a sum => Aircraft.total_seats a + sum) 0 l.

(** The aircraft in service. *)
Definition in_service (l : list Aircraft.t) : list Aircraft.t :=
  filter (fun a => Aircraft.status a = "active") l.

(** The actions that run the top of a script, where [token] is bound. *)
Definition binds_token (a : action) : bool :=
  match a with
  | ResetLoad _ | ProfileLoad | DashboardLoadPage | AircraftLoad => true
  | _ => false
  end.

(** An event other than a page load. *)
Definition stays_on_page (e : event) : bool :=
  match e with
  | Act a => negb (binds_token a)
  | Arrive _ _ _ => true
  end.

(** The five forms with a submit control the scripts drive. *)
Definition drives_control (f : form) : bool :=
  match f with
  | AircraftForm => false
  | _ => true
  end.

(** The caption of the control while the call of a form is out. *)
Definition busy_caption (f : form) : string :=
  match f with
  | ForgotForm => "Sending..."
  | LoginForm => "Logging in..."
  | RegisterForm => "Creating Account..."
  | ResetForm => "Resetting..."
  | ProfileForm => "Updating..."
  | AircraftForm => ""
  end.

(** The forms whose success leaves the page. *)
Definition leaves_on_success (f : form) : option string :=
  match f with
  | LoginForm => Some "/dashboard"
  | RegisterForm | ResetForm => Some "/login"
  | _ => None
  end.

(** A 2xx reply whose body parses. *)
Definition success {A : Type} (r : reply A) : Prop :=
  match r with
  | Ok (Json _) => True
  | _ => False
  end.

(** [user.full_name = n] on a user object. *)
Definition renamed (n : string) (u : User.t) : User.t :=
  {| User.email := User.email u; User.full_name := n;
     User.role := User.role u; User.phone := User.phone u;
     User.profile_photo := User.profile_photo u;
     User.is_verified := User.is_verified u;
     User.created_at := User.created_at u;
     User.last_login := User.last_login u |}.

(** A browser for the examples that stores a user by name and reads the
    stored text back as the name of [ada]. *)
Definition naming_browser : Browser := {|
  JSON_stringify := User.full_name;
  JSON_parse := fun s => Json (renamed s ada);
  toLocaleDateString := fun s => s;
  toLocaleString_long := fun s => s;
  toLocaleString_short := fun s => s;
  number_toLocaleString := Number_toString;
  readAsDataURL := fun f => "data:" +:+ File.type f +:+ ";base64,";
  checkValidity := fun _ => true;
  formReset := fun fields => fields
|}.

(** A fleet of two for the examples. *)
Definition sk101 : Aircraft.t :=
  {| Aircraft.id := 1; Aircraft.aircraft_number := "SK-101";
     Aircraft.manufacturer := "Airbus"; Aircraft.model := "A320";
     Aircraft.manufacturing_year := Some 2015;
     Aircraft.economy_seats := 150; Aircraft.business_seats := 24;
     Aircraft.first_class_seats := 6; Aircraft.total_seats := 180;
     Aircraft.status := "active" |}.

Definition sk202 : Aircraft.t :=
  {| Aircraft.id := 2; Aircraft.aircraft_number := "SK-202";
     Aircraft.manufacturer := "Boeing"; Aircraft.model := "737";
     Aircraft.manufacturing_year := None;
     Aircraft.economy_seats := 120; Aircraft.business_seats := 16;
     Aircraft.first_class_seats := 0; Aircraft.total_seats := 136;
     Aircraft.status := "retired" |}.

Definition fleet : list Aircraft.t := [sk101; sk202].

(** A page of the aircraft administration with its counters. *)
Definition hangar : World := {|
  localStorage := localStorage signed_in; href := "/admin/aircraft";
  token := Some "t0k3n"; editingAircraftId := None;
  submitBtn := {| disabled := false; textContent := "Save" |};
  elements := {[ "aircraftGrid"; "loadingOverlay"; "totalSeatsCalc";
                 "totalAircraft"; "activeAircraft"; "totalSeats" ]};
  props := ∅; alerts := []; requests := []
|}.

(** A page with none of the optional elements. *)
Definition bare : World := {|
  localStorage := ∅; href := "/"; token := None; editingAircraftId := None;
  submitBtn := {| disabled := false; textContent := "Submit" |};
  elements := ∅; props := ∅; alerts := []; requests := []
|}.

(** The calls whose continuation may write the store or set the location:
    the forms that leave on success, the loaders and the form of the
    profile, and the logouts. *)
Definition session_call (c : call) : bool :=
  match c with
  | Login _ | Register _ | ResetPassword _
  | ProfilePageLoad | DashboardLoad | ProfileUpdate _ _
  | ProfileLogout | DashboardLogout => true
  | _ => false
  end.

(** The events that may write the store or set the location: the page
    loads (their guard), the logout of the aircraft page, and the replies
    to the calls above. *)
Definition session_event (e : event) : bool :=
  match e with
  | Act a => binds_token a || match a with LogoutClick => true | _ => false end
  | Arrive _ c _ => session_call c
  end.

(** The dashboard of a signed-in user, logging out while offline. *)
Definition offline_logout : list event :=
  [ Act (DashboardLogoutClick true);
    Arrive 0 DashboardLogout (Rejected "Failed to fetch") ].

Definition on_dashboard : Machine := {| page := signed_in; inflight := [] |}.

(** The profile page of [ada], her name in the store. *)
Definition ada_profile : World := setItem "user" "Ada Byron" signed_in.

(** * Properties *)

(** ** Numbers and strings at examples *)

Example to_double_tie : to_double (2 ^ 53 + 1) = Num (2 ^ 53).
Proof. vm_compute. reflexivity. Qed.

Example to_double_up : to_double (2 ^ 53 + 3) = Num (2 ^ 53 + 4).
Proof. vm_compute. reflexivity. Qed.

Example num_add_rounds :
  num_add (Num 9007199254740992) (Num 1) = Num 9007199254740992.
Proof. vm_compute. reflexivity. Qed.

Example show_safe_most : show 9007199254740991 = "9007199254740991".
Proof. vm_compute. reflexivity. Qed.

Example show_shortest : show (2 ^ 60) = "1152921504606847000".
Proof. vm_compute. reflexivity. Qed.

Example show_exponent : show (10 ^ 21) = "1e+21".
Proof. vm_compute. reflexivity. Qed.

Example show_fraction : show (2 ^ 70) = "1.1805916207174113e+21".
Proof. vm_compute. reflexivity. Qed.

Example parseInt_exponent : parseInt (show (10 ^ 21)) = Num 1.
Proof. vm_compute. reflexivity. Qed.

Example parseInt_rounds : parseInt "9007199254740993" = Num 9007199254740992.
Proof. vm_compute. reflexivity. Qed.

Example parseInt_overflow : parseInt ("1" +:+ zeros 400) = Infinity false.
Proof. vm_compute. reflexivity. Qed.

Example parseInt_no_break_space : parseInt (bytes [194; 160]%nat +:+ "12") = Num 12.
Proof. vm_compute. reflexivity. Qed.

Example js_length_cyrillic :
  js_length "парол" = 5%nat /\ String.length "парол" = 10%nat.
Proof. split; reflexivity. Qed.

Example js_length_astral : js_length "😀😀😀" = 6%nat.
Proof. reflexivity. Qed.

Example trim_unicode :
  trim (bytes [239; 187; 191]%nat +:+ " ada " +:+ bytes [226; 128; 168]%nat)
  = "ada".
Proof. vm_compute. reflexivity. Qed.

(** ** parseInt, toLowerCase *)

Example parseInt_plain : parseInt "150" = Num 150.
Proof. reflexivity. Qed.

Example parseInt_empty : parseInt "" = NaN.
Proof. reflexivity. Qed.

Example parseInt_prefix : parseInt "  12 seats" = Num 12.
Proof. reflexivity. Qed.

Example parseInt_hex : parseInt "0x1F" = Num 31.
Proof. reflexivity. Qed.

Example parseInt_letters : parseInt "many" = NaN.
Proof. reflexivity. Qed.

Example toLowerCase_mixed : toLowerCase "Retired" = "retired".
Proof. reflexivity. Qed.

Lemma dec_value_char d :
  (d < 10)%N -> dec_value (pretty_N_char d) = Some (Z.of_N d).
Proof.
  intros Hd.
  assert (d = 0 ∨ d = 1 ∨ d = 2 ∨ d = 3 ∨ d = 4 ∨ d = 5 ∨ d = 6 ∨ d = 7
          ∨ d = 8 ∨ d = 9)%N as Hc by lia.
  destruct Hc as [->|[->|[->|[->|[->|[->|[->|[->|[->| ->]]]]]]]]]; reflexivity.
Qed.

Lemma is_digit_char d : is_digit (pretty_N_char d) = true.
Proof. unfold pretty_N_char. repeat case_match; reflexivity. Qed.

(** Reading the numeral of [x] in front of [s] shifts the value read so
    far by the digits of [x]. *)
Lemma digits_pretty_N_go x :
  exists k, 0 <= k /\ forall s acc seen,
    digits dec_value 10 (pretty_N_go x s) acc seen =
    digits dec_value 10 s (acc * 10 ^ k + Z.of_N x) (seen || (0 <? Z.of_N x)).
Proof.
  induction (N.lt_wf_0 x) as [x _ IH].
  destruct (decide (x = 0%N)) as [-> | Hx].
  - exists 0. split; [lia | ]. intros s acc seen.
    rewrite pretty_N_go_0, orb_false_r. f_equal. lia.
  - destruct (IH (x `div` 10)%N) as (k & Hk & Hgo).
    { apply N.div_lt; lia. }
    exists (k + 1). split; [lia | ]. intros s acc seen.
    rewrite pretty_N_go_step by lia. rewrite Hgo. cbn [digits].
    rewrite dec_value_char by (apply N.mod_lt; lia).
    replace (seen || (0 <? Z.of_N x)) with true
      by (symmetry; apply orb_true_iff; right; apply Z.ltb_lt; lia).
    f_equal. rewrite Z.pow_add_r by lia.
    rewrite N2Z.inj_div, N2Z.inj_mod.
    pose proof (Z.div_mod (Z.of_N x) 10 ltac:(lia)). simpl Z.of_N. lia.
Qed.

Lemma all_digits_pretty_N_go x s :
  all_digits s = true -> all_digits (pretty_N_go x s) = true.
Proof.
  revert s. induction (N.lt_wf_0 x) as [x _ IH]; intros s Hs.
  destruct (decide (x = 0%N)) as [-> | Hx]; [by rewrite pretty_N_go_0 | ].
  rewrite pretty_N_go_step by lia. apply IH; [apply N.div_lt; lia | ].
  cbn [all_digits]. by rewrite is_digit_char, Hs.
Qed.

Lemma pretty_N_go_nonempty x s : (0 < x)%N -> pretty_N_go x s <> "".
Proof.
  revert s. induction (N.lt_wf_0 x) as [x _ IH]; intros s Hx.
  rewrite pretty_N_go_step by lia.
  destruct (decide (x `div` 10 = 0)%N) as [-> | Hd].
  - rewrite pretty_N_go_0. discriminate.
  - apply IH; [apply N.div_lt; lia | by apply N.neq_0_lt_0].
Qed.

(** On a field of digits, [parseInt] finds no white space, sign or
    [0x] prefix. *)
Lemma parseInt_digits s :
  all_digits s = true -> s <> "" ->
  parseInt s = digits dec_value 10 s 0 false.
Proof.
  destruct s as [ | c r]; [done | ]. intros Hs _.
  cbn [all_digits] in Hs. apply andb_true_iff in Hs as [Hc Hr].
  destruct c as [[] [] [] [] [] [] [] []]; try discriminate Hc;
    try reflexivity.
  destruct r as [ | c' r']; [reflexivity | ].
  cbn [all_digits] in Hr. apply andb_true_iff in Hr as [Hc' _].
  destruct c' as [[] [] [] [] [] [] [] []]; try discriminate Hc'; reflexivity.
Qed.

(** A safe integer is its own double. *)
Lemma to_double_safe z : safe z -> to_double z = Num z.
Proof.
  intros [Hlo Hhi]. unfold to_double.
  rewrite (proj2 (Z.ltb_lt (Z.abs z) (2 ^ 53))); [reflexivity | lia].
Qed.

(** [parseInt] reads the decimal numeral of a non-negative integer as the
    double nearest to it. *)
Lemma parseInt_pretty n : 0 <= n -> parseInt (pretty n) = to_double n.
Proof.
  intros Hn. destruct n as [ | p | p]; [reflexivity | | lia].
  change (pretty (Z.pos p)) with (pretty (N.pos p)).
  unfold pretty, pretty_N. rewrite decide_False by discriminate.
  rewrite parseInt_digits.
  - destruct (digits_pretty_N_go (N.pos p)) as (k & _ & ->).
    cbn [digits orb]. f_equal.
  - by apply all_digits_pretty_N_go.
  - by apply pretty_N_go_nonempty.
Qed.

(** Below [2^53] that is the integer itself. *)
Lemma parseInt_safe n : 0 <= n < 2 ^ 53 -> parseInt (pretty n) = Num n.
Proof.
  intros Hn. rewrite parseInt_pretty by lia.
  apply to_double_safe. unfold safe. lia.
Qed.

(** String conversion of a safe integer gives its decimal numeral. *)
Lemma show_safe n : safe n -> show n = pretty n.
Proof.
  intros Hn. unfold show, json_number. rewrite to_double_safe by exact Hn.
  destruct Hn as [Hlo Hhi]. unfold Number_toString.
  rewrite (proj2 (Z.ltb_lt (Z.abs n) (2 ^ 53))); [reflexivity | lia].
Qed.

(** A sum that is a safe integer is exact. *)
Lemma num_add_safe x y : safe (x + y) -> num_add (Num x) (Num y) = Num (x + y).
Proof. intros Hs. cbn [num_add]. by apply to_double_safe. Qed.

Lemma Number_toString_safe n : safe n -> Number_toString (Num n) = pretty n.
Proof.
  intros [Hlo Hhi]. unfold Number_toString.
  rewrite (proj2 (Z.ltb_lt (Z.abs n) (2 ^ 53))); [reflexivity | lia].
Qed.

(** ** Writes to the page, projected *)

Lemma setProp_if_present_props id prop v w :
  setProp_if_present id prop v w =
  set_props (fun m => if bool_decide (id ∈ elements w)
                      then <[(id, prop) := v]> m else m) w.
Proof.
  unfold setProp_if_present, setProp. destruct w; simpl.
  case_bool_decide; reflexivity.
Qed.

Lemma truthy_is_Some o : truthy o = true -> is_Some o.
Proof. destruct o; [eauto | discriminate]. Qed.

(** Projections of a page after a chain of writes. *)
Ltac page_simpl :=
  repeat first
    [ rewrite setProp_if_present_props
    | progress unfold getItem, getProp, value
    | progress cbn [fst snd done finally localStorage href token
        editingAircraftId submitBtn elements props alerts requests
        set_localStorage set_href set_token set_editingAircraftId
        set_submitBtn set_props set_alerts set_requests alert navigate
        getItem setItem removeItem fetch getProp setProp value busy restore
        sessionExpired] ].

Ltac unfold_triggers :=
  cbn [perform submit];
  unfold ForgotPasswordPage.forgotPasswordForm_submit, LoginPage.loginForm_submit,
    RegisterPage.registerForm_submit, ResetPasswordPage.load,
    ResetPasswordPage.resetPasswordForm_submit, ProfilePage.load,
    ProfilePage.profileForm_submit, ProfilePage.resendVerification_click,
    ProfilePage.resendVerification, ProfilePage.loadProfile,
    ProfilePage.photoInput_change, ProfilePage.deletePhotoBtn_click,
    ProfilePage.logoutBtn_click, DashboardPage.load, DashboardPage.loadProfile,
    DashboardPage.loadActivityLogs, DashboardPage.logoutBtn_click,
    AircraftPage.load, AircraftPage.openCreateModal, AircraftPage.loadAircraft,
    AircraftPage.calculateTotalSeats, AircraftPage.editAircraft,
    AircraftPage.changeStatus, AircraftPage.saveAircraft, AircraftPage.closeModal,
    AircraftPage.logout, AircraftPage.showLoading.

Ltac unfold_replies :=
  unfold settle in *; cbn [resume data] in *;
  unfold ForgotPasswordPage.forgotPasswordForm_reply, LoginPage.loginForm_reply,
    RegisterPage.registerForm_reply, ResetPasswordPage.resetPasswordForm_reply,
    ProfilePage.loadProfile_reply, ProfilePage.profileForm_reply,
    ProfilePage.profileForm_updated,
    ProfilePage.resendVerification_reply, ProfilePage.photoInput_reply,
    ProfilePage.deletePhotoBtn_reply, ProfilePage.logoutBtn_reply,
    DashboardPage.loadProfile_reply, DashboardPage.loadActivityLogs_reply,
    DashboardPage.logoutBtn_reply, AircraftPage.loadAircraft_reply,
    AircraftPage.editAircraft_reply, AircraftPage.changeStatus_reply,
    AircraftPage.saveAircraft_reply, AircraftPage.updateStats,
    AircraftPage.displayAircraft, AircraftPage.hideLoading,
    AircraftPage.closeModal, AircraftPage.calculateTotalSeats,
    ProfilePage.loadProfile, AircraftPage.loadAircraft.

(** ** The session store *)

Lemma store_write_paired (w w' : World) :
  store_write (localStorage w) (localStorage w') -> paired w -> paired w'.
Proof.
  unfold paired, getItem. intros Hw Hp.
  destruct Hw as [ | t u | | u Hu].
  - exact Hp.
  - rewrite lookup_insert_ne by discriminate.
    rewrite !lookup_insert_eq. split; eauto.
  - rewrite lookup_delete_ne by discriminate.
    rewrite !lookup_delete_eq. split; intros [? ?]; discriminate.
  - rewrite lookup_insert_ne by discriminate.
    rewrite lookup_insert_eq. split; [eauto | intros _; apply Hp, Hu].
Qed.

Section Store.
Context `{Browser}.

(** No trigger writes the store, except the logout of the aircraft page. *)
Lemma perform_store a w :
  store_write (localStorage w) (localStorage (perform a w).1).
Proof.
  destruct a; unfold_triggers; repeat case_match; page_simpl; constructor.
Qed.

(** A continuation writes the store in one of the four ways. *)
Lemma resume_store c (r : reply (data c)) w :
  store_write (localStorage w) (localStorage (resume c r w).1).
Proof.
  destruct c; unfold_replies;
    destruct r as [msg | [msg | a] | status [msg | detail]];
    repeat case_match; simplify_eq; page_simpl; try (constructor; fail).
  all: apply user_rewritten, truthy_is_Some; page_simpl; assumption.
Qed.

Lemma step_store e m m' :
  step e m = Some m' ->
  store_write (localStorage (page m)) (localStorage (page m')).
Proof.
  destruct e as [a | i c r]; cbn [step].
  - pose proof (perform_store a (page m)) as Hw.
    destruct (perform a (page m)) as [w new]. intros [= <-]. exact Hw.
  - case_bool_decide; [ | discriminate].
    pose proof (resume_store c r (page m)) as Hw.
    destruct (resume c r (page m)) as [w new]. intros [= <-]. exact Hw.
Qed.

Lemma run_paired es : forall m m',
  paired (page m) -> run es m = Some m' -> paired (page m').
Proof.
  induction es as [ | e es IH]; intros m m' Hp; cbn [run].
  - intros [= <-]. exact Hp.
  - destruct (step e m) as [m1 | ] eqn:Hstep; [ | discriminate].
    apply IH. eapply store_write_paired; [ | exact Hp].
    exact (step_store e m m1 Hstep).
Qed.

Lemma cleared_sessionExpired w : cleared (sessionExpired w).
Proof.
  unfold cleared. page_simpl.
  by rewrite lookup_delete_ne, !lookup_delete_eq.
Qed.

End Store.

(** ** Which calls carry the token *)

Section Auth.
Context `{Browser}.

Lemma perform_authenticated a w :
  Forall2 carries_token
    (drop (length (requests w)) (requests (perform a w).1)) (perform a w).2.
Proof.
  destruct a; unfold_triggers; repeat case_match; page_simpl;
    rewrite <- ?app_assoc, ?drop_app_length, ?drop_all;
    repeat constructor; cbn; try done; intros [? ?]; done.
Qed.

Lemma resume_authenticated c (r : reply (data c)) w :
  Forall2 carries_token
    (drop (length (requests w)) (requests (resume c r w).1)) (resume c r w).2.
Proof.
  destruct c; unfold_replies;
    destruct r as [msg | [msg | a] | status [msg | detail]];
    repeat case_match; simplify_eq; page_simpl;
    rewrite <- ?app_assoc, ?drop_app_length, ?drop_all;
    repeat constructor; cbn; try done; intros [? ?]; done.
Qed.
End Auth.

(** ** The session contract *)

Section Contract.
Context `{Browser}.

(** C3: the two keys of the session are written together.  A successful
    login stores both, a logout (on any of the three pages) and the
    handling of an expired session remove both, and from a page whose store
    has both keys or neither, no sequence of user actions and replies, in
    any interleaving, reaches a page with one key and not the other. *)
Theorem session_keys_paired :
  (forall originalText data w,
     let w' := settle (Login originalText) (Ok (Json data)) w in
     getItem "access_token" w' = Some (access_token data) /\
     getItem "user" w' = Some (JSON_stringify (user data))) /\
  (forall r w,
     cleared (settle ProfileLogout r w) /\
     cleared (settle DashboardLogout r w) /\
     cleared (AircraftPage.logout w)) /\
  (forall w, cleared (sessionExpired w)) /\
  (forall es m m',
     paired (page m) -> run es m = Some m' -> paired (page m')).
Proof.
  split; [ | split; [ | split]].
  - intros originalText data w. cbv zeta. unfold_replies. page_simpl.
    rewrite lookup_insert_ne by discriminate.
    by rewrite !lookup_insert_eq.
  - intros r w. unfold cleared, AircraftPage.logout. unfold_replies. page_simpl.
    by rewrite lookup_delete_ne, !lookup_delete_eq.
  - apply cleared_sessionExpired.
  - apply run_paired.
Qed.

(** C10: once the user has confirmed, the logout of the profile page and of
    the dashboard sends POST /api/logout and, whatever comes back (a
    rejected promise included), removes both keys and leaves for the home
    page; the logout of the aircraft page removes both keys and leaves for
    the login page without any call. *)
Theorem confirmed_logout_clears (w : World) (r : reply unit) :
  let p := perform (ProfileLogoutClick true) w in
  let d := perform (DashboardLogoutClick true) w in
  let a := perform LogoutClick w in
  (p.2 = [ProfileLogout] /\
   (exists req, requests p.1 = requests w ++ [req] /\
      method req = "POST" /\ url req = "/api/logout") /\
   cleared (settle ProfileLogout r p.1) /\
   href (settle ProfileLogout r p.1) = "/") /\
  (d.2 = [DashboardLogout] /\
   (exists req, requests d.1 = requests w ++ [req] /\
      method req = "POST" /\ url req = "/api/logout") /\
   cleared (settle DashboardLogout r d.1) /\
   href (settle DashboardLogout r d.1) = "/") /\
  (a.2 = [] /\ requests a.1 = requests w /\
   cleared a.1 /\ href a.1 = "/login").
Proof.
  unfold_triggers. unfold_replies. unfold cleared. page_simpl.
  rewrite lookup_delete_ne by discriminate. rewrite !lookup_delete_eq.
  repeat split; eexists; repeat split.
Qed.

(** C1 (where the code stops short): a 401 reply to the activity-log call
    of the dashboard, to the photo upload and deletion of the profile page,
    and to the status change and the save of the aircraft page is handled
    as any other failure.  The store keeps what it held and the page stays
    where it is. *)
Theorem unauthorized_reply_not_expiry (w : World) (body : parsed (option string)) :
  (forall c : call,
     c = ActivityLogs \/ c = UploadPhoto \/ c = DeletePhoto \/
     c = ChangeStatus \/ c = SaveAircraft ->
     forall r : reply (data c), r = NotOk 401 body ->
     authenticated c = true /\
     localStorage (settle c r w) = localStorage w /\
     href (settle c r w) = href w) /\
  getProp "activityLogs" "innerHTML" (settle ActivityLogs (NotOk 401 body) w)
  = DashboardPage.logsError.
Proof.
  split.
  - intros c Hc r ->.
    destruct Hc as [-> | [-> | [-> | [-> | ->]]]]; unfold_replies;
      destruct body; page_simpl; auto.
  - unfold_replies. page_simpl. by rewrite lookup_insert_eq.
Qed.

(** X20: where the 401 test is written (both loaders of the profile, and
    the profile form when the error body parses), a 401 removes both keys
    of the session and sets the location to the login page. *)
Lemma unauthorized_reply_expiry (w : World) :
  (forall body,
     cleared (settle ProfilePageLoad (NotOk 401 body) w) /\
     href (settle ProfilePageLoad (NotOk 401 body) w) = "/login") /\
  (forall body,
     cleared (settle DashboardLoad (NotOk 401 body) w) /\
     href (settle DashboardLoad (NotOk 401 body) w) = "/login") /\
  (forall originalText full_name detail,
     cleared (settle (ProfileUpdate originalText full_name)
                (NotOk 401 (Json detail)) w) /\
     href (settle (ProfileUpdate originalText full_name)
             (NotOk 401 (Json detail)) w) = "/login").
Proof.
  unfold cleared. repeat split; unfold_replies; rewrite ?Z.eqb_refl;
    page_simpl;
    first [ reflexivity | apply lookup_delete_eq
          | rewrite lookup_delete_ne by discriminate; apply lookup_delete_eq ].
Qed.

End Contract.

(** ** Local validation *)

Section Validation.
Context `{Browser}.

(** C4, as the code has it: a password whose length, counted as the
    language counts it in UTF-16 code units, is below 6 stops the
    registration form and the reset-password form, and a non-empty one
    stops the profile form.  The handler then only shows the message: the
    submit control is as it was and no call goes out. *)
Theorem short_password_blocks (w : World) :
  (js_length (value "password" w) < 6)%nat ->
  (RegisterPage.registerForm_submit w = done (alert password_too_short w) /\
   ResetPasswordPage.resetPasswordForm_submit w = done (alert password_too_short w) /\
   (value "password" w <> "" ->
    ProfilePage.profileForm_submit w = done (alert password_too_short w))) /\
  submitBtn (alert password_too_short w) = submitBtn w /\
  requests (alert password_too_short w) = requests w.
Proof.
  intros Hshort. apply Nat.ltb_lt in Hshort.
  unfold RegisterPage.registerForm_submit,
    ResetPasswordPage.resetPasswordForm_submit, ProfilePage.profileForm_submit.
  rewrite Hshort. repeat split.
  intros Hne. rewrite bool_decide_eq_false_2 by exact Hne. reflexivity.
Qed.

(** C4 as stated fails: on the profile form an empty password, which is
    shorter than 6, is no password change, and the update is sent. *)
Lemma empty_password_is_sent :
  (js_length (value "password" profile_without_password) < 6)%nat /\
  (ProfilePage.profileForm_submit profile_without_password).2
    = [ProfileUpdate "Submit" "Ada Byron"] /\
  requests (ProfilePage.profileForm_submit profile_without_password).1
    = [ {| method := "PUT"; url := "/api/profile"; content_json := true;
           authorization := Some "Bearer t0k3n";
           body := ProfileBody "Ada Byron" None None |} ].
Proof. vm_compute. repeat split. lia. Qed.

(** C5: on the reset-password form, a password that differs from its
    confirmation stops the submission, whatever the two are: the handler
    shows one message and does nothing else, so no call goes out and the
    submit control is as it was. *)
Theorem mismatch_blocks (w : World) :
  value "password" w <> value "confirmPassword" w ->
  let o := ResetPasswordPage.resetPasswordForm_submit w in
  (exists msg, o = done (alert msg w)) /\
  o.2 = [] /\ requests o.1 = requests w /\ submitBtn o.1 = submitBtn w.
Proof.
  intros Hne. cbv zeta. unfold ResetPasswordPage.resetPasswordForm_submit.
  rewrite (bool_decide_eq_false_2 _ Hne). cbn [negb].
  destruct (js_length (value "password" w) <? 6)%nat;
    (split; [eexists; reflexivity | repeat split]).
Qed.

(** C6: an answer to the status prompt that is missing (the box was
    cancelled), empty, or whose lower-case form is none of active,
    maintenance and retired is rejected: the handler shows Invalid status
    and does nothing else, so no call goes out. *)
Theorem invalid_status_rejected (id : Z) (currentStatus : string)
    (answer : option string) (w : World) :
  (forall s, answer = Some s -> toLowerCase s ∉ AircraftPage.statuses) ->
  let o := AircraftPage.changeStatus id currentStatus answer w in
  o = done (alert "Invalid status" w) /\
  o.2 = [] /\ requests o.1 = requests w.
Proof.
  intros Hbad. cbv zeta. unfold AircraftPage.changeStatus.
  destruct answer as [s | ]; [ | repeat split].
  specialize (Hbad s eq_refl).
  destruct (decide (s = "")) as [-> | Hs]; [repeat split | ].
  assert (str_or (Some s) "" = s) as ->
    by (unfold str_or; by rewrite bool_decide_eq_false_2).
  unfold includes. rewrite (bool_decide_eq_false_2 _ Hbad).
  rewrite orb_true_r. repeat split.
Qed.

(** X19: an answer to the status prompt whose lower-case form is one of
    the three statuses is accepted in any case: the call is a PUT that
    carries the status in lower case. *)
Lemma valid_status_sent (id : Z) (currentStatus s : string) (w : World) :
  toLowerCase s ∈ AircraftPage.statuses ->
  let o := AircraftPage.changeStatus id currentStatus (Some s) w in
  o.2 = [ChangeStatus] /\
  exists req, requests o.1 = requests w ++ [req] /\
    method req = "PUT" /\ body req = StatusBody (toLowerCase s).
Proof.
  intros Hin. cbv zeta. unfold AircraftPage.changeStatus.
  assert (s <> "") as Hs.
  { intros ->. apply list_elem_of_In in Hin. cbn in Hin.
    intuition discriminate. }
  assert (str_or (Some s) "" = s) as ->
    by (unfold str_or; by rewrite bool_decide_eq_false_2).
  unfold includes, truthy. rewrite (bool_decide_eq_true_2 _ Hin).
  rewrite (bool_decide_eq_false_2 _ Hs). cbn [negb orb].
  unfold AircraftPage.showLoading. page_simpl.
  split; [reflexivity | eexists; repeat split].
Qed.

(** C9: a picked file whose type is not one of the four image types, or
    whose size is above 5 * 1024 * 1024, is not uploaded and the input is
    emptied; a file that passes both tests is uploaded; so an upload only
    goes out for a file that passes both. *)
Theorem photo_checked_before_upload (f : File.t) (w : World) :
  let o := ProfilePage.photoInput_change (Some f) w in
  (File.type f ∉ ProfilePage.allowedTypes \/ 5 * 1024 * 1024 < File.size f ->
   requests o.1 = requests w /\ o.2 = [] /\ value "photoInput" o.1 = "") /\
  (File.type f ∈ ProfilePage.allowedTypes -> File.size f <= 5 * 1024 * 1024 ->
   o.2 = [UploadPhoto] /\
   exists req, requests o.1 = requests w ++ [req] /\
     method req = "POST" /\ url req = "/api/upload-photo" /\
     authorization req = Some (bearer w) /\ body req = FormDataBody f) /\
  (requests o.1 <> requests w ->
   File.type f ∈ ProfilePage.allowedTypes /\ File.size f <= 5 * 1024 * 1024).
Proof.
  cbv zeta. unfold ProfilePage.photoInput_change, includes.
  destruct (decide (File.type f ∈ ProfilePage.allowedTypes)) as [Hin | Hout].
  - rewrite (bool_decide_eq_true_2 _ Hin). cbn [negb].
    destruct (Z.gtb_spec (File.size f) (5 * 1024 * 1024)) as [Hbig | Hsmall].
    + page_simpl. rewrite lookup_insert_eq.
      repeat split; try done; lia.
    + page_simpl. split; [intros [? | ?]; [done | lia] | ].
      split; [ | done].
      intros _ _. split; [reflexivity | eexists; repeat split].
  - rewrite (bool_decide_eq_false_2 _ Hout). cbn [negb].
    page_simpl. rewrite lookup_insert_eq. repeat split; done.
Qed.

End Validation.

Section Forms.
Context `{Browser}.

(** C2, as the code has it, for non-negative seat counts whose sum is
    below 2^53: when the three seat fields hold their decimal numerals and
    the form passes its validity check, the call that goes out carries the
    three counts and their sum as total_seats; when the check fails nothing
    goes out; and the live total of the form reads an empty seat field
    as 0. *)
Theorem total_seats_is_the_sum (w : World) (economy business first : Z) :
  0 <= economy -> 0 <= business -> 0 <= first ->
  economy + business + first < 2 ^ 53 ->
  (value "economy_seats" w = pretty economy ->
   value "business_seats" w = pretty business ->
   value "first_class_seats" w = pretty first ->
   checkValidity w = true ->
   let o := AircraftPage.saveAircraft w in
   o.2 = [SaveAircraft] /\
   exists req d, requests o.1 = requests w ++ [req] /\
     body req = AircraftBody d /\
     AircraftData.economy_seats d = Num economy /\
     AircraftData.business_seats d = Num business /\
     AircraftData.first_class_seats d = Num first /\
     AircraftData.total_seats d = Num (economy + business + first)) /\
  (checkValidity w = false -> AircraftPage.saveAircraft w = done w) /\
  (field_holds (value "economy_seats" w) economy ->
   field_holds (value "business_seats" w) business ->
   field_holds (value "first_class_seats" w) first ->
   "totalSeatsCalc" ∈ elements w ->
   getProp "totalSeatsCalc" "textContent" (AircraftPage.calculateTotalSeats w)
   = pretty (economy + business + first)).
Proof.
  intros He Hb Hf Hsum. split; [ | split].
  - intros Ve Vb Vf Hvalid. cbv zeta.
    unfold AircraftPage.saveAircraft. rewrite Hvalid. cbn [negb].
    unfold AircraftPage.showLoading. page_simpl.
    split; [reflexivity | ]. eexists _, _. split; [reflexivity | ].
    cbn [body]. split; [reflexivity | ].
    unfold AircraftPage.aircraftData.
    cbn [AircraftData.economy_seats AircraftData.business_seats
         AircraftData.first_class_seats AircraftData.total_seats].
    unfold value in Ve, Vb, Vf. unfold value. rewrite Ve, Vb, Vf.
    rewrite !parseInt_safe by lia.
    rewrite !num_add_safe by (unfold safe; lia). repeat split.
  - intros Hinvalid. unfold AircraftPage.saveAircraft. by rewrite Hinvalid.
  - intros Fe Fb Ff Hpresent.
    assert (forall s n, field_holds s n -> n < 2 ^ 53 ->
                        num_or_zero (parseInt s) = Num n) as Hread.
    { intros s n [[-> ->] | [Hn ->]] Hlt; [reflexivity | ].
      rewrite parseInt_safe by lia. unfold num_or_zero, num_truthy.
      destruct (Z.eqb_spec n 0); cbn [negb]; congruence. }
    assert (0 <= economy /\ 0 <= business /\ 0 <= first) as _ by lia.
    unfold AircraftPage.calculateTotalSeats.
    rewrite (Hread _ _ Fe), (Hread _ _ Fb), (Hread _ _ Ff) by lia.
    rewrite !num_add_safe, Number_toString_safe by (unfold safe; lia).
    page_simpl. rewrite (bool_decide_eq_true_2 _ Hpresent).
    by rewrite lookup_insert_eq.
Qed.


End Forms.

(** ** Rendering *)

Section Rendering.
Context `{Browser}.

Lemma concat_cons (x : string) (l : list string) :
  String.concat "" (x :: l) = x +:+ String.concat "" l.
Proof.
  destruct l as [ | y l]; cbn [String.concat]; [ | reflexivity].
  induction x as [ | c x IH]; [reflexivity | ].
  change (String c x = String c (x +:+ EmptyString)). by rewrite <- IH.
Qed.

(** The first code units of a card: a line feed, eight spaces and [<]. *)
Lemma aircraftCard_head a :
  exists rest, AircraftPage.aircraftCard a = LF +:+ "        <" +:+ rest.
Proof.
  eexists. unfold AircraftPage.aircraftCard, lines.
  cbn [String.concat]. reflexivity.
Qed.

(** An entry of the activity log starts with a line feed. *)
Lemma activityItem_head log :
  exists rest, DashboardPage.activityItem log = LF +:+ rest.
Proof.
  eexists. unfold DashboardPage.activityItem, lines.
  cbn [String.concat]. reflexivity.
Qed.

(** C8: for an empty list the aircraft grid gets the empty-state fragment
    and the activity log gets its no-activity paragraph.  Neither is the
    empty string, each differs from what any non-empty list renders to and
    from the error fragment of its loader, and a reply with an empty list
    puts it in the container. *)
Theorem empty_list_renders_empty_state :
  (AircraftPage.gridHtml [] = AircraftPage.emptyState /\
   AircraftPage.emptyState <> "" /\
   (forall a l, AircraftPage.gridHtml (a :: l) <> AircraftPage.emptyState) /\
   (forall msg, AircraftPage.loadError msg <> AircraftPage.emptyState) /\
   (forall w, "aircraftGrid" ∈ elements w ->
      getProp "aircraftGrid" "innerHTML" (settle LoadAircraft (Ok (Json [])) w)
      = AircraftPage.emptyState)) /\
  (DashboardPage.logsHtml [] = DashboardPage.noActivity /\
   DashboardPage.noActivity <> "" /\
   (forall log l, DashboardPage.logsHtml (log :: l) <> DashboardPage.noActivity) /\
   DashboardPage.logsError <> DashboardPage.noActivity /\
   (forall w,
      getProp "activityLogs" "innerHTML" (settle ActivityLogs (Ok (Json [])) w)
      = DashboardPage.noActivity)).
Proof.
  split; repeat split.
  - discriminate.
  - intros a l. unfold AircraftPage.gridHtml.
    rewrite bool_decide_eq_false_2 by discriminate.
    cbn [map]. rewrite concat_cons.
    destruct (aircraftCard_head a) as [rest ->]. discriminate.
  - intros msg. discriminate.
  - intros w Hgrid. unfold_replies. page_simpl.
    rewrite (bool_decide_eq_true_2 _ Hgrid). cbn [negb]. page_simpl.
    repeat case_bool_decide; rewrite ?lookup_insert_ne by discriminate;
      by rewrite lookup_insert_eq.
  - discriminate.
  - intros log l. unfold DashboardPage.logsHtml.
    rewrite bool_decide_eq_false_2 by discriminate.
    cbn [map]. rewrite concat_cons.
    destruct (activityItem_head log) as [rest ->]. discriminate.
  - discriminate.
  - intros w. unfold_replies. page_simpl. by rewrite lookup_insert_eq.
Qed.

End Rendering.

(** ** The properties at concrete pages *)

(** C2 as stated fails: 9007199254740992, 1 and 0 are non-negative
    integers and every field of the form is filled in, so the call goes
    out; its total_seats is 9007199254740992, the double nearest to the
    sum, where the claim expects 9007199254740993. *)
Lemma large_seat_counts_are_rounded :
  @checkValidity strict_browser (new_aircraft "9007199254740992" "1" "0")
  = true /\
  exists req d,
    requests (@AircraftPage.saveAircraft strict_browser
                (new_aircraft "9007199254740992" "1" "0")).1 = [req] /\
    body req = AircraftBody d /\
    AircraftData.economy_seats d = Num 9007199254740992 /\
    AircraftData.business_seats d = Num 1 /\
    AircraftData.first_class_seats d = Num 0 /\
    AircraftData.total_seats d = Num 9007199254740992 /\
    AircraftData.total_seats d <> Num (9007199254740992 + 1 + 0).
Proof.
  split; [vm_compute; reflexivity | ].
  eexists _, _. split; [vm_compute; reflexivity | ].
  split; [reflexivity | ]. repeat split. discriminate.
Qed.

(** With every field of the form required, a form with an empty seat
    field is held back: nothing goes out. *)
Lemma empty_seat_field_is_held_back (w : World) :
  value "economy_seats" w = "" \/ value "business_seats" w = ""
  \/ value "first_class_seats" w = "" ->
  @AircraftPage.saveAircraft strict_browser w = done w.
Proof.
  intros Hempty. unfold AircraftPage.saveAircraft.
  change (@checkValidity strict_browser w) with (all_required w).
  assert (all_required w = false) as ->; [ | reflexivity].
  unfold all_required. cbn [forallb].
  destruct Hempty as [-> | [-> | ->]];
    rewrite (bool_decide_eq_true_2 ("" = "") eq_refl); cbn [negb andb];
    by rewrite ?andb_false_r.
Qed.

(** C2 on a form filled in with 120, 24 and 8 seats: 152 are sent. *)
Lemma total_seats_is_the_sum_witness :
  let w := new_aircraft "120" "24" "8" in
  let o := @AircraftPage.saveAircraft strict_browser w in
  @checkValidity strict_browser w = true /\
  o.2 = [SaveAircraft] /\
  exists req d, requests o.1 = requests w ++ [req] /\
    body req = AircraftBody d /\
    AircraftData.economy_seats d = Num 120 /\
    AircraftData.business_seats d = Num 24 /\
    AircraftData.first_class_seats d = Num 8 /\
    AircraftData.total_seats d = Num (120 + 24 + 8).
Proof.
  cbv zeta. split; [vm_compute; reflexivity | ].
  destruct (@total_seats_is_the_sum strict_browser (new_aircraft "120" "24" "8")
              120 24 8 ltac:(lia) ltac:(lia) ltac:(lia) ltac:(lia))
    as [Hsent _].
  apply Hsent; reflexivity.
Defined.

(** C3 along a successful login from a fresh browser: both keys are there. *)
Lemma session_keys_paired_witness :
  exists m, run (H := plain_browser) login_trace start = Some m /\
    getItem "access_token" (page m) = Some "t0k3n" /\
    paired (page m).
Proof.
  eexists. split; [vm_compute; reflexivity | ].
  split; [reflexivity | ].
  eapply (proj2 (proj2 (proj2 (@session_keys_paired plain_browser))))
    with (es := login_trace) (m := start); [ | vm_compute; reflexivity].
  unfold paired, getItem. cbn. rewrite !lookup_empty. reflexivity.
Defined.

(** C1 on the dashboard of a signed-in user: after a 401 to the
    activity-log call the session is still in the store. *)
Lemma unauthorized_reply_not_expiry_witness :
  let w := settle (H := plain_browser) ActivityLogs
             (NotOk 401 (Json (Some "Could not validate credentials")))
             signed_in in
  localStorage w = localStorage signed_in /\ href w = href signed_in /\
  getItem "access_token" signed_in = Some "t0k3n" /\
  getItem "user" signed_in = Some "{}" /\ href signed_in = "/".
Proof.
  destruct (@unauthorized_reply_not_expiry plain_browser signed_in
              (Json (Some "Could not validate credentials"))) as [Hkept _].
  destruct (Hkept ActivityLogs (or_introl eq_refl) _ eq_refl)
    as (_ & Hstore & Hhref).
  repeat split; assumption.
Defined.

(** C4 with the password парол, five letters that take ten bytes: the
    three forms show the message. *)
Lemma short_password_blocks_witness :
  let w := filled [("password", "парол"); ("fullName", "Ada Byron")] blank in
  (js_length (value "password" w) < 6)%nat /\
  RegisterPage.registerForm_submit w = done (alert password_too_short w) /\
  ResetPasswordPage.resetPasswordForm_submit w = done (alert password_too_short w) /\
  ProfilePage.profileForm_submit w = done (alert password_too_short w).
Proof.
  cbv zeta.
  assert (js_length
            (value "password"
               (filled [("password", "парол"); ("fullName", "Ada Byron")] blank)) < 6)%nat
    as Hshort by (vm_compute; lia).
  destruct (short_password_blocks _ Hshort) as ((Hreg & Hreset & Hprofile) & _).
  split; [exact Hshort | split; [exact Hreg | split; [exact Hreset | ]]].
  apply Hprofile. vm_compute. discriminate.
Defined.

(** C5 with two passwords of seven code units that differ in the last. *)
Lemma mismatch_blocks_witness :
  let w := filled [("password", "secret1"); ("confirmPassword", "secret2")] blank in
  value "password" w <> value "confirmPassword" w /\
  requests (ResetPasswordPage.resetPasswordForm_submit w).1 = requests w /\
  (ResetPasswordPage.resetPasswordForm_submit w).2 = [].
Proof.
  cbv zeta.
  assert (value "password"
            (filled [("password", "secret1"); ("confirmPassword", "secret2")] blank)
          <> value "confirmPassword"
            (filled [("password", "secret1"); ("confirmPassword", "secret2")] blank))
    as Hne by (vm_compute; discriminate).
  destruct (mismatch_blocks _ Hne) as (_ & Hnone & Hreq & _).
  repeat split; assumption.
Defined.

(** C6 with the answer Grounded, and with the prompt cancelled. *)
Lemma invalid_status_rejected_witness :
  (toLowerCase "Grounded" ∉ AircraftPage.statuses) /\
  AircraftPage.changeStatus 7 "active" (Some "Grounded") signed_in
  = done (alert "Invalid status" signed_in) /\
  AircraftPage.changeStatus 7 "active" None signed_in
  = done (alert "Invalid status" signed_in).
Proof.
  assert (toLowerCase "Grounded" ∉ AircraftPage.statuses) as Hbad.
  { intros Hin. apply list_elem_of_In in Hin. cbn in Hin.
    intuition discriminate. }
  split; [exact Hbad | ]. split.
  - apply (invalid_status_rejected 7 "active" (Some "Grounded") signed_in).
    intros s [= <-]. exact Hbad.
  - apply (invalid_status_rejected 7 "active" None signed_in).
    intros s Hs. discriminate Hs.
Defined.


(** C8 on a page that has the grid. *)
Lemma empty_list_renders_empty_state_witness :
  getProp "aircraftGrid" "innerHTML"
    (settle (H := plain_browser) LoadAircraft (Ok (Json [])) blank)
  = AircraftPage.emptyState.
Proof.
  apply (proj1 (@empty_list_renders_empty_state plain_browser)).
  vm_compute. set_solver.
Defined.

(** C9 with a GIF, a PNG one byte too big, and a PNG of exactly 5 MB. *)
Lemma photo_checked_before_upload_witness :
  let gif := {| File.name := "me.gif"; File.type := "image/gif"; File.size := 1000 |} in
  let big := {| File.name := "me.png"; File.type := "image/png";
                File.size := 5 * 1024 * 1024 + 1 |} in
  let png := {| File.name := "me.png"; File.type := "image/png";
                File.size := 5 * 1024 * 1024 |} in
  requests (ProfilePage.photoInput_change (H := plain_browser) (Some gif) signed_in).1 = [] /\
  requests (ProfilePage.photoInput_change (H := plain_browser) (Some big) signed_in).1 = [] /\
  (ProfilePage.photoInput_change (H := plain_browser) (Some png) signed_in).2
    = [UploadPhoto].
Proof.
  cbv zeta. split; [ | split].
  - apply (@photo_checked_before_upload plain_browser
             {| File.name := "me.gif"; File.type := "image/gif"; File.size := 1000 |}
             signed_in).
    left. intros Hin. apply list_elem_of_In in Hin. cbn in Hin.
    intuition discriminate.
  - apply (@photo_checked_before_upload plain_browser
             {| File.name := "me.png"; File.type := "image/png";
                File.size := 5 * 1024 * 1024 + 1 |} signed_in).
    right. cbn. lia.
  - apply (@photo_checked_before_upload plain_browser
             {| File.name := "me.png"; File.type := "image/png";
                File.size := 5 * 1024 * 1024 |} signed_in).
    + apply list_elem_of_In. cbn. tauto.
    + cbn. lia.
Defined.

(** * Further properties *)

(** ** The token binding *)

Section Binding.
Context `{Browser}.

Lemma perform_token a w :
  binds_token a = false -> token (perform a w).1 = token w.
Proof.
  destruct a; try discriminate; intros _; unfold_triggers;
    repeat case_match; page_simpl; reflexivity.
Qed.

Lemma resume_token c (r : reply (data c)) w :
  token (resume c r w).1 = token w.
Proof.
  destruct c; unfold_replies;
    destruct r as [msg | [msg | a] | status [msg | detail]];
    repeat case_match; simplify_eq; page_simpl; reflexivity.
Qed.

(** X1: the token is read from the store once, at the top of the script.
    Whatever the user does on the page and whatever replies arrive, a
    logout or an expired session included, the binding keeps its value
    until a page is loaded again. *)
Theorem token_bound_at_load (es : list event) (m m' : Machine) :
  forallb stays_on_page es = true ->
  run es m = Some m' ->
  token (page m') = token (page m).
Proof.
  revert m. induction es as [ | e es IH]; intros m Hq; cbn [run].
  - intros [= <-]. reflexivity.
  - cbn [forallb] in Hq. apply andb_true_iff in Hq as [He Hes].
    destruct (step e m) as [m1 | ] eqn:Hstep; [ | discriminate].
    intros Hrun. rewrite (IH m1 Hes Hrun).
    destruct e as [a | i c r]; cbn [step] in Hstep.
    + pose proof (perform_token a (page m)) as Ht.
      destruct (perform a (page m)) as [w new]. injection Hstep as <-.
      apply Ht. cbn [stays_on_page] in He. by destruct (binds_token a).
    + case_bool_decide; [ | discriminate].
      pose proof (resume_token c r (page m)) as Ht.
      destruct (resume c r (page m)) as [w new]. injection Hstep as <-.
      exact Ht.
Qed.

End Binding.

(** ** trim and parseInt, further *)

Lemma append_assoc (x y z : string) : x +:+ (y +:+ z) = (x +:+ y) +:+ z.
Proof.
  induction x as [ | c x IHx]; [reflexivity | ].
  change (String c (x +:+ (y +:+ z)) = String c ((x +:+ y) +:+ z)).
  by rewrite IHx.
Qed.

Lemma append_empty_r (a : string) : a +:+ "" = a.
Proof.
  induction a as [ | c a IH]; [reflexivity | ].
  change (String c (a +:+ "") = String c a). by rewrite IH.
Qed.

Lemma append_length (a b : string) :
  String.length (a +:+ b) = (String.length a + String.length b)%nat.
Proof.
  induction a as [ | c a IH]; [reflexivity | ].
  change (S (String.length (a +:+ b)) = S (String.length a + String.length b)).
  by rewrite IH.
Qed.

Lemma rev_app_spec (s t : string) : String.rev_app s t = String.rev s +:+ t.
Proof.
  unfold String.rev. revert t.
  induction s as [ | c s IH]; intros t; cbn [String.rev_app]; [reflexivity | ].
  rewrite (IH (String c "")), IH, <- append_assoc. reflexivity.
Qed.

Lemma rev_cons c s : String.rev (String c s) = String.rev s +:+ String c "".
Proof. unfold String.rev at 1. cbn [String.rev_app]. apply rev_app_spec. Qed.

Lemma rev_append (a b : string) :
  String.rev (a +:+ b) = String.rev b +:+ String.rev a.
Proof.
  induction a as [ | c a IH]; cbn [String.app].
  - by rewrite append_empty_r.
  - change (String c a +:+ b) with (String c (a +:+ b)).
    rewrite !rev_cons, IH, <- append_assoc. reflexivity.
Qed.

Lemma rev_involutive (s : string) : String.rev (String.rev s) = s.
Proof.
  induction s as [ | c s IH]; [reflexivity | ].
  rewrite rev_cons, rev_append, IH. reflexivity.
Qed.

Lemma rev_length (s : string) : String.length (String.rev s) = String.length s.
Proof.
  induction s as [ | c s IH]; [reflexivity | ].
  rewrite rev_cons, append_length, IH. cbn. lia.
Qed.

Lemma rev_empty (s : string) : String.rev s = "" -> s = "".
Proof. intros Hs. rewrite <- (rev_involutive s), Hs. reflexivity. Qed.

Lemma strip_prefix_app p s : strip_prefix p (p +:+ s) = Some s.
Proof.
  induction p as [ | c p IH]; [by destruct s | ].
  change (strip_prefix (String c p) (String c p +:+ s))
    with (if Ascii.eqb c c then strip_prefix p (p +:+ s) else None).
  by rewrite Ascii.eqb_refl.
Qed.

Lemma strip_prefix_Some p s r : strip_prefix p s = Some r -> s = p +:+ r.
Proof.
  revert s. induction p as [ | c p IH]; intros s.
  - destruct s; cbn [strip_prefix]; intros [= <-]; reflexivity.
  - destruct s as [ | b s]; cbn [strip_prefix]; [discriminate | ].
    destruct (Ascii.eqb_spec c b) as [-> | ]; [ | discriminate].
    intros Hs. by rewrite (IH _ Hs).
Qed.

Lemma strip_any_Some ps s r :
  strip_any ps s = Some r -> exists p, p ∈ ps /\ s = p +:+ r.
Proof.
  induction ps as [ | p ps IH]; cbn; [discriminate | ].
  destruct (strip_prefix p s) as [r' | ] eqn:Hp.
  - intros [= <-]. exists p. split; [left | by apply strip_prefix_Some].
  - intros Hs. destruct (IH Hs) as (p' & Hin & ->). exists p'. split; [by right | done].
Qed.

Lemma strip_any_starts ps p s : p ∈ ps -> strip_any ps (p +:+ s) <> None.
Proof.
  induction 1 as [p ps | p p' ps _ IH]; cbn.
  - by rewrite strip_prefix_app.
  - destruct (strip_prefix p' (p +:+ s)); [done | exact IH].
Qed.

Section Dropping.
Variable ps : list string.
Hypothesis nonempty : forall p, p ∈ ps -> p <> "".

Lemma strip_shorter s r :
  strip_any ps s = Some r -> (String.length r < String.length s)%nat.
Proof.
  intros Hs. destruct (strip_any_Some _ _ _ Hs) as (p & Hin & ->).
  rewrite append_length. specialize (nonempty p Hin).
  destruct p; [done | cbn; lia].
Qed.

Lemma strip_any_empty : strip_any ps "" = None.
Proof.
  destruct (strip_any ps "") as [r | ] eqn:Hs; [ | reflexivity].
  apply strip_shorter in Hs. cbn in Hs. lia.
Qed.

(** What is left starts with none of [ps]. *)
Lemma drop_leading_stops fuel s :
  (String.length s <= fuel)%nat ->
  strip_any ps (drop_leading ps fuel s) = None.
Proof.
  revert s. induction fuel as [ | fuel IH]; intros s Hlen; cbn [drop_leading].
  - destruct s; [apply strip_any_empty | cbn in Hlen; lia].
  - destruct (strip_any ps s) as [r | ] eqn:Hs; [ | exact Hs].
    apply IH. apply strip_shorter in Hs. lia.
Qed.

(** Nothing is left only of a concatenation of members of [ps]. *)
Lemma drop_leading_all fuel s :
  (String.length s <= fuel)%nat ->
  drop_leading ps fuel s = "" -> run_of ps s.
Proof.
  revert s. induction fuel as [ | fuel IH]; intros s Hlen; cbn [drop_leading].
  - intros ->. constructor.
  - destruct (strip_any ps s) as [r | ] eqn:Hs.
    + intros Hr. pose proof (strip_shorter _ _ Hs) as Hlt.
      destruct (strip_any_Some _ _ _ Hs) as (p & Hin & ->).
      constructor; [done | ]. apply IH; [lia | done].
    + intros ->. constructor.
Qed.

End Dropping.

Lemma run_of_snoc ps s w : run_of ps s -> w ∈ ps -> run_of ps (s +:+ w).
Proof.
  intros Hs Hw. induction Hs as [ | w' s Hw' _ IH].
  - change ("" +:+ w) with w. rewrite <- (append_empty_r w).
    apply run_of_more; [exact Hw | apply run_of_none].
  - rewrite <- append_assoc. by constructor.
Qed.

Lemma run_of_rev ps s : run_of (String.rev <$> ps) s -> run_of ps (String.rev s).
Proof.
  induction 1 as [ | w s Hw _ IH]; [constructor | ].
  apply list_elem_of_fmap in Hw as (p & -> & Hp).
  rewrite rev_append, rev_involutive. by apply run_of_snoc.
Qed.

Lemma whitespace_nonempty p : p ∈ whitespace -> p <> "".
Proof.
  intros Hp ->. revert Hp. apply (bool_decide_unpack _). vm_compute. reflexivity.
Qed.

Lemma whitespace_rev_nonempty p : p ∈ String.rev <$> whitespace -> p <> "".
Proof.
  intros Hp ->. revert Hp. apply (bool_decide_unpack _). vm_compute. reflexivity.
Qed.

(** A white-space character at the start is the one [trimStart] drops. *)
Lemma strip_whitespace w s : w ∈ whitespace -> strip_any whitespace (w +:+ s) = Some s.
Proof.
  unfold whitespace. cbn [map]. intros Hw.
  repeat (apply elem_of_cons in Hw as [-> | Hw]; [by destruct s | ]).
  by apply elem_of_nil in Hw.
Qed.

Lemma drop_leading_white_space fuel s :
  white_space_only s -> (String.length s <= fuel)%nat -> drop_leading whitespace fuel s = "".
Proof.
  intros Hs. revert fuel. induction Hs as [ | w s Hw _ IH]; intros fuel Hlen.
  - by destruct fuel.
  - pose proof (whitespace_nonempty w Hw) as Hne.
    rewrite append_length in Hlen.
    destruct fuel as [ | fuel]; [destruct w; [done | cbn in Hlen; lia] | ].
    cbn [drop_leading]. rewrite strip_whitespace by done.
    apply IH. destruct w; [done | cbn in Hlen; lia].
Qed.

Lemma trimStart_white_space s : trimStart s = "" <-> white_space_only s.
Proof.
  split.
  - intros Hs.
    apply (drop_leading_all _ whitespace_nonempty (String.length s)); [lia | done].
  - intros Hs. by apply drop_leading_white_space.
Qed.

(** [trim] leaves nothing exactly of a text of white space. *)
Lemma trim_white_space s : trim s = "" <-> white_space_only s.
Proof.
  split.
  - intros Hs. apply trimStart_white_space.
    unfold trim, trimEnd in Hs. apply rev_empty in Hs.
    apply (drop_leading_all _ whitespace_rev_nonempty) in Hs;
      [ | by rewrite rev_length].
    apply run_of_rev in Hs. rewrite rev_involutive in Hs.
    pose proof (drop_leading_stops _ whitespace_nonempty
                  (String.length s) s (le_n _)) as Hstop.
    fold (trimStart s) in Hstop.
    destruct Hs as [ | w t Hw _]; [reflexivity | ].
    by apply strip_any_starts with (s := t) in Hw.
  - intros Hs. apply trimStart_white_space in Hs. unfold trim. rewrite Hs. reflexivity.
Qed.

Lemma parse_magnitude_digits s :
  all_digits s = true -> s <> "" ->
  parse_magnitude s = digits dec_value 10 s 0 false.
Proof.
  destruct s as [ | c r]; [done | ]. intros Hs _.
  cbn [all_digits] in Hs. apply andb_true_iff in Hs as [Hc Hr].
  destruct c as [[] [] [] [] [] [] [] []]; try discriminate Hc;
    try reflexivity.
  destruct r as [ | c' r']; [reflexivity | ].
  cbn [all_digits] in Hr. apply andb_true_iff in Hr as [Hc' _].
  destruct c' as [[] [] [] [] [] [] [] []]; try discriminate Hc'; reflexivity.
Qed.

(** [parseInt] reads back the decimal numeral of every safe integer. *)
Lemma parseInt_numeral n : safe n -> parseInt (pretty n) = Num n.
Proof.
  intros Hn.
  destruct n as [ | p | p];
    [reflexivity | apply parseInt_safe; unfold safe in Hn; lia | ].
  change (pretty (Z.neg p)) with (String "-" (pretty (N.pos p))).
  change (parseInt (String "-" (pretty (N.pos p))))
    with (num_neg (parse_magnitude (pretty (N.pos p)))).
  unfold pretty, pretty_N. rewrite decide_False by discriminate.
  rewrite parse_magnitude_digits.
  - destruct (digits_pretty_N_go (N.pos p)) as (k & _ & ->).
    cbn [digits orb].
    change (0 * 10 ^ k + Z.of_N (N.pos p)) with (Z.pos p).
    rewrite to_double_safe by (unfold safe in *; lia). reflexivity.
  - by apply all_digits_pretty_N_go.
  - by apply pretty_N_go_nonempty.
Qed.

Lemma lookup_guarded_insert_ne (b : bool) (k k' : string * string) (v : string)
    (m : gmap (string * string) string) :
  k <> k' -> (if b then <[k := v]> m else m) !! k' = m !! k'.
Proof. intros Hk. destruct b; [by apply lookup_insert_ne | reflexivity]. Qed.

(** Reading a chain of writes to the properties. *)
Ltac lookup_simpl :=
  repeat first
    [ rewrite lookup_insert_eq
    | rewrite lookup_insert_ne by discriminate
    | rewrite lookup_guarded_insert_ne by discriminate
    | progress cbn [default from_option Datatypes.id] ].

(** ** Guards, headers and the submit control *)

Section Session.
Context `{Browser}.

(** X2: the guard at the top of the dashboard, profile and aircraft scripts
    does not stop the script.  Without a token in the store (or with an
    empty one) it shows its message and sets the location to the login
    page, and the loaders still send their calls, the authenticated ones
    with the missing token spelled out in the header; with a token nothing
    is shown and the location is kept. *)
Theorem guard_does_not_halt (w : World) :
  let stored := getItem "access_token" w in
  let guarded (o : outcome) :=
    token o.1 = stored /\
    href o.1 = (if truthy stored then href w else "/login") /\
    alerts o.1 = (if truthy stored then alerts w
                  else alerts w ++ ["⚠️ Please login first!"]) in
  let get path auth := {| method := "GET"; url := path; content_json := false;
                          authorization := auth; body := NoBody |} in
  let header := Some ("Bearer " +:+ null_string stored) in
  (guarded (DashboardPage.load w) /\
   (DashboardPage.load w).2 = [DashboardLoad; ActivityLogs] /\
   requests (DashboardPage.load w).1
   = requests w ++ [get "/api/profile" header; get "/api/activity-logs" header]) /\
  (guarded (ProfilePage.load w) /\
   (ProfilePage.load w).2 = [ProfilePageLoad] /\
   requests (ProfilePage.load w).1 = requests w ++ [get "/api/profile" header]) /\
  (guarded (AircraftPage.load w) /\
   (AircraftPage.load w).2 = [LoadAircraft] /\
   requests (AircraftPage.load w).1
   = requests w ++ [get (AircraftPage.API_URL +:+ "/flights/aircraft") None]).
Proof.
  cbv zeta. unfold_triggers. unfold bearer.
  destruct (truthy (getItem "access_token" w)) eqn:Hstored; page_simpl;
    unfold getItem in Hstored; rewrite ?Hstored; page_simpl;
    rewrite <- ?app_assoc; repeat split.
Qed.

(** X3: every turn of the event loop adds the calls it sends to the log, one
    suspended handler per call, and a call carries the Authorization
    header exactly when its handler is one of the authenticated ones; the
    header is then the bearer form of the token bound on the page. *)
Theorem calls_and_headers (e : event) (m m' : Machine) :
  step e m = Some m' ->
  exists reqs calls,
    requests (page m') = requests (page m) ++ reqs /\
    inflight m' = match e with
                  | Act _ => inflight m
                  | Arrive i _ _ => delete i (inflight m)
                  end ++ calls /\
    Forall2 carries_token reqs calls /\
    Forall (fun req => is_Some (authorization req) ->
                       authorization req = Some (bearer (page m'))) reqs.
Proof.
  destruct e as [a | i c r]; cbn [step].
  - destruct m as [w fl]; cbn [page inflight].
    destruct (perform a w) as [w' new] eqn:Hp. intros [= <-].
    cbn [page inflight]. exists (drop (length (requests w)) (requests w')), new.
    pose proof (perform_authenticated a w) as Hauth. rewrite Hp in Hauth.
    cbn [fst snd] in Hauth.
    revert Hp Hauth. destruct a; unfold_triggers; repeat case_match;
      intros [= <- <-]; page_simpl; unfold bearer; page_simpl;
      rewrite <- ?app_assoc, ?drop_app_length, ?drop_all, ?app_nil_r;
      intros Hauth; (split; [reflexivity | ]); (split; [reflexivity | ]);
      (split; [exact Hauth | ]);
      repeat constructor; cbn; intros [? ?]; by simplify_eq.
  - destruct m as [w fl]; cbn [page inflight].
    case_bool_decide; [ | discriminate].
    destruct (resume c r w) as [w' new] eqn:Hp. intros [= <-].
    cbn [page inflight]. exists (drop (length (requests w)) (requests w')), new.
    pose proof (resume_authenticated c r w) as Hauth. rewrite Hp in Hauth.
    cbn [fst snd] in Hauth.
    revert Hp Hauth. clear. destruct c; unfold_replies;
      destruct r as [msg | [msg | a] | status [msg | detail]];
      repeat case_match; simplify_eq; unfold done;
      intros [= <- <-]; page_simpl; unfold bearer; page_simpl;
      rewrite <- ?app_assoc, ?drop_app_length, ?drop_all, ?app_nil_r;
      intros Hauth; (split; [reflexivity | ]); (split; [reflexivity | ]);
      (split; [exact Hauth | ]);
      repeat constructor; cbn; intros [? ?]; by simplify_eq.
Qed.

End Session.

Section Controls.
Context `{Browser}.

(** X4: on the five forms with a driven submit control, a submission that
    reaches the network disables the control and shows the in-progress
    caption.  When the reply arrives the control gets its caption back and
    is enabled again, except after a success of the login, registration or
    reset-password form, which leave for their target page with the
    control still disabled; on those three forms any other reply keeps the
    location. *)
Theorem control_follows_the_call (f : form) (w w1 : World) (c : call)
    (r : reply (data c)) :
  drives_control f = true ->
  perform (submit f) w = (w1, [c]) ->
  let idle := {| disabled := false; textContent := textContent (submitBtn w) |} in
  let o := resume c r w1 in
  submitBtn w1 = {| disabled := true; textContent := busy_caption f |} /\
  match leaves_on_success f with
  | Some target =>
      (success r -> submitBtn o.1 = submitBtn w1 /\ href o.1 = target) /\
      (~ success r -> submitBtn o.1 = idle /\ href o.1 = href w)
  | None => submitBtn o.1 = idle
  end.
Proof.
  intros Hdriven Hsubmit. cbv zeta.
  destruct f; try discriminate Hdriven;
    cbn [leaves_on_success busy_caption];
    revert Hsubmit; unfold_triggers;
    repeat case_match; intros [= <- <-];
    unfold_replies;
    destruct r as [msg | [msg | a] | status [msg | detail]];
    cbn [success]; repeat case_match; page_simpl;
    repeat split; intros; first [reflexivity | tauto].
Qed.

(** X5: the loading overlay, when the page has one, is up while the call
    of a status change or of a save is out and is taken down by every
    reply, a failure or a rejected promise included. *)
Theorem overlay_follows_the_call (a : action) (w w1 : World) (c : call)
    (r : reply (data c)) :
  (a = SaveClick \/
   exists id currentStatus answer, a = ChangeStatusClick id currentStatus answer) ->
  perform a w = (w1, [c]) ->
  "loadingOverlay" ∈ elements w ->
  getProp "loadingOverlay" "display" w1 = "flex" /\
  getProp "loadingOverlay" "display" (resume c r w1).1 = "none".
Proof.
  intros Ha Hsent Hoverlay.
  destruct Ha as [-> | (id & currentStatus & answer & ->)];
    revert Hsent; unfold_triggers; repeat case_match; intros [= <- <-];
    unfold_replies;
    destruct r as [msg | body | status [msg | detail]];
    page_simpl; rewrite !(bool_decide_eq_true_2 _ Hoverlay);
    by rewrite !lookup_insert_eq.
Qed.

End Controls.

(** ** The aircraft form *)

Section Fleet.
Context `{Browser}.

(** X6: an aircraft fetched for editing and saved as loaded goes back with
    the fields it came with, when its identifier and year are safe
    integers and its seat counts are non-negative with a sum below 2^53.
    The number field is locked, the call is a PUT on the record (for the
    identifier 0, which the script reads as nothing being edited, a POST
    on the collection), the three seat counts are the fetched ones, and
    total_seats is their sum, whatever total the server had sent. *)
Theorem edit_then_save (id : Z) (a : Aircraft.t) (w : World) :
  let w1 := settle (EditAircraft id) (Ok (Json a)) w in
  safe id ->
  (forall y, Aircraft.manufacturing_year a = Some y -> safe y) ->
  0 <= Aircraft.economy_seats a ->
  0 <= Aircraft.business_seats a ->
  0 <= Aircraft.first_class_seats a ->
  Aircraft.economy_seats a + Aircraft.business_seats a
  + Aircraft.first_class_seats a < 2 ^ 53 ->
  checkValidity w1 = true ->
  let o := AircraftPage.saveAircraft w1 in
  getProp "aircraft_number" "disabled" w1 = "true" /\
  o.2 = [SaveAircraft] /\
  exists req d,
    requests o.1 = requests w ++ [req] /\
    method req = (if id =? 0 then "POST" else "PUT") /\
    url req = (if id =? 0 then AircraftPage.API_URL +:+ "/flights/aircraft"
               else AircraftPage.API_URL +:+ "/flights/aircraft/" +:+ pretty id) /\
    authorization req = Some (bearer w) /\
    body req = AircraftBody d /\
    AircraftData.aircraft_number d = Aircraft.aircraft_number a /\
    AircraftData.manufacturer d = Aircraft.manufacturer a /\
    AircraftData.model d = Aircraft.model a /\
    AircraftData.status d = Aircraft.status a /\
    AircraftData.manufacturing_year d
    = Aircraft.manufacturing_year a ≫= (fun y => num_or_null (Num y)) /\
    AircraftData.economy_seats d = Num (Aircraft.economy_seats a) /\
    AircraftData.business_seats d = Num (Aircraft.business_seats a) /\
    AircraftData.first_class_seats d = Num (Aircraft.first_class_seats a) /\
    AircraftData.total_seats d
    = Num (Aircraft.economy_seats a + Aircraft.business_seats a
           + Aircraft.first_class_seats a).
Proof.
  cbv zeta. intros Hid Hyear He Hb Hf Hsum Hvalid.
  unfold AircraftPage.saveAircraft.
  rewrite Hvalid. cbn [negb]. clear Hvalid.
  unfold AircraftPage.aircraftData, AircraftPage.showLoading,
    AircraftPage.editing.
  unfold_replies. page_simpl.
  assert (num_or_null (parseInt (AircraftPage.year_or_empty
                                   (Aircraft.manufacturing_year a)))
          = Aircraft.manufacturing_year a ≫= (fun y => num_or_null (Num y)))
    as Hread.
  { destruct (Aircraft.manufacturing_year a) as [y | ]; [ | reflexivity].
    specialize (Hyear y eq_refl). cbn [AircraftPage.year_or_empty mbind option_bind].
    destruct (Z.eqb_spec y 0) as [-> | Hy]; [reflexivity | ].
    by rewrite show_safe, parseInt_numeral. }
  lookup_simpl. rewrite Hread.
  rewrite !show_safe, !parseInt_numeral by (unfold safe in *; lia).
  rewrite !num_add_safe by (unfold safe; lia).
  split; [reflexivity | ]. split; [reflexivity | ].
  eexists _, _. split; [reflexivity | ].
  cbn [method url authorization body negb default from_option Datatypes.id
       AircraftData.aircraft_number AircraftData.manufacturer
       AircraftData.model AircraftData.status AircraftData.manufacturing_year
       AircraftData.economy_seats AircraftData.business_seats
       AircraftData.first_class_seats AircraftData.total_seats].
  destruct (id =? 0); cbn [negb]; repeat split.
Qed.

(** X7: after [openCreateModal] nothing is being edited: whatever record
    was open before, the number field is unlocked and a save is a POST on
    the collection. *)
Theorem create_after_edit_posts (w : World) :
  let w1 := AircraftPage.openCreateModal w in
  checkValidity w1 = true ->
  let o := AircraftPage.saveAircraft w1 in
  editingAircraftId w1 = None /\
  getProp "aircraft_number" "disabled" w1 = "false" /\
  getProp "aircraftModal" "display" w1 = "block" /\
  o.2 = [SaveAircraft] /\
  exists req, requests o.1 = requests w ++ [req] /\
    method req = "POST" /\
    url req = AircraftPage.API_URL +:+ "/flights/aircraft" /\
    body req = AircraftBody (AircraftPage.aircraftData w1).
Proof.
  cbv zeta. intros Hvalid. unfold AircraftPage.saveAircraft.
  rewrite Hvalid. cbn [negb]. clear Hvalid.
  unfold AircraftPage.showLoading, AircraftPage.editing.
  unfold_triggers. page_simpl.
  lookup_simpl. repeat split. eexists. repeat split.
Qed.

Lemma seat_total_nonneg (l : list Aircraft.t) :
  Forall (fun a => 0 <= Aircraft.total_seats a) l -> 0 <= seat_total l.
Proof.
  induction 1 as [ | a l Ha _ IH]; [done | ].
  change (seat_total (a :: l)) with (Aircraft.total_seats a + seat_total l).
  lia.
Qed.

(** Below 2^53 the doubles that [reduce] adds up are the integers. *)
Lemma foldl_seats (l : list Aircraft.t) : forall acc,
  Forall (fun a => 0 <= Aircraft.total_seats a) l ->
  0 <= acc -> acc + seat_total l < 2 ^ 53 ->
  foldl (fun sum a => num_add sum (json_number (Aircraft.total_seats a)))
    (Num acc) l
  = Num (acc + seat_total l).
Proof.
  induction l as [ | a l IH]; intros acc Hl Hacc Hsum.
  - cbn [foldl]. f_equal. change (seat_total []) with 0. lia.
  - apply Forall_cons in Hl as [Ha Hl].
    pose proof (seat_total_nonneg l Hl) as Hrest.
    change (seat_total (a :: l)) with (Aircraft.total_seats a + seat_total l)
      in Hsum |- *.
    cbn [foldl]. unfold json_number.
    rewrite to_double_safe, num_add_safe by (unfold safe; lia).
    rewrite IH by (done || lia). f_equal. lia.
Qed.

(** X8: on a page that has the three counters, [updateStats] shows the
    number of records and the number of those whose status is exactly
    active, which is never above the number of records; and, for
    non-negative seat totals whose sum is below 2^53, the local form of
    the sum of their total_seats. *)
Theorem counters_of_the_fleet (l : list Aircraft.t) (w : World) :
  "totalAircraft" ∈ elements w ->
  "activeAircraft" ∈ elements w ->
  "totalSeats" ∈ elements w ->
  let w' := AircraftPage.updateStats l w in
  getProp "totalAircraft" "textContent" w' = pretty (Z.of_nat (length l)) /\
  getProp "activeAircraft" "textContent" w'
  = pretty (Z.of_nat (length (in_service l))) /\
  (length (in_service l) <= length l)%nat /\
  (Forall (fun a => 0 <= Aircraft.total_seats a) l ->
   seat_total l < 2 ^ 53 ->
   getProp "totalSeats" "textContent" w'
   = number_toLocaleString (Num (seat_total l))).
Proof.
  intros Htotal Hactive Hseats. cbv zeta. unfold AircraftPage.updateStats.
  page_simpl.
  rewrite (bool_decide_eq_true_2 _ Htotal), (bool_decide_eq_true_2 _ Hactive),
    (bool_decide_eq_true_2 _ Hseats).
  lookup_simpl.
  split; [reflexivity | ]. split; [reflexivity | ].
  split; [unfold in_service; apply length_filter | ].
  intros Hl Hsum. by rewrite foldl_seats, Z.add_0_l.
Qed.

End Fleet.

(** ** Fields and their rules *)

Section Fields.
Context `{Browser}.

(** X9: the forgot-password form is stopped exactly when its e-mail field
    holds white space only (or nothing), the white space being that of the
    language: it then shows its message and sends nothing; otherwise the
    address goes out trimmed, without an Authorization header.  The login
    form is stopped by such an e-mail field as well, and by an empty
    password, which is not trimmed. *)
Theorem blank_email_blocked (w : World) :
  let o := ForgotPasswordPage.forgotPasswordForm_submit w in
  let l := LoginPage.loginForm_submit w in
  (white_space_only (value "email" w) ->
   o = done (alert "❌ Please enter your email address!" w) /\
   l = done (alert "❌ Please fill in all fields!" w)) /\
  (~ white_space_only (value "email" w) ->
   o.2 = [ForgotPassword (textContent (submitBtn w))] /\
   requests o.1
   = requests w ++ [ {| method := "POST"; url := "/api/forgot-password";
                        content_json := true; authorization := None;
                        body := EmailBody (trim (value "email" w)) |} ] /\
   trim (value "email" w) <> "") /\
  (value "password" w = "" ->
   l = done (alert "❌ Please fill in all fields!" w)) /\
  (~ white_space_only (value "email" w) -> value "password" w <> "" ->
   l.2 = [Login (textContent (submitBtn w))] /\
   requests l.1
   = requests w ++ [ {| method := "POST"; url := "/api/login";
                        content_json := true; authorization := None;
                        body := LoginBody (trim (value "email" w))
                                  (value "password" w) |} ]).
Proof.
  cbv zeta. unfold_triggers.
  destruct (decide (trim (value "email" w) = "")) as [Hempty | Hfull].
  - assert (white_space_only (value "email" w)) as Hblank
      by (by apply trim_white_space).
    rewrite (bool_decide_eq_true_2 _ Hempty). cbn [orb].
    repeat split; done.
  - assert (~ white_space_only (value "email" w)) as Hblank
      by (by rewrite <- trim_white_space).
    rewrite (bool_decide_eq_false_2 _ Hfull). cbn [orb].
    split; [done | ]. split; [intros _; repeat split; done | ].
    split.
    + intros Hpw. by rewrite (bool_decide_eq_true_2 _ Hpw).
    + intros _ Hpw. rewrite (bool_decide_eq_false_2 _ Hpw). repeat split.
Qed.

(** X10: the full-name rule, applied to the trimmed field once the password
    has passed, lengths being counted in UTF-16 code units.  A
    registration is stopped with a message, and sends nothing, exactly
    when the name is shorter than 2.  The profile form is stopped exactly
    when the name is not empty and shorter than 2: an empty name goes
    out, as does every name of 2 or more. *)
Theorem short_name_blocked (w : World) :
  let name := trim (value "fullName" w) in
  let invalid := "❌ Please enter a valid full name!" in
  let r := RegisterPage.registerForm_submit w in
  let p := ProfilePage.profileForm_submit w in
  ((6 <= js_length (value "password" w))%nat ->
   ((js_length name < 2)%nat -> r = done (alert invalid w)) /\
   ((2 <= js_length name)%nat ->
    r.2 = [Register (textContent (submitBtn w))] /\
    exists req, requests r.1 = requests w ++ [req] /\
      method req = "POST" /\ url req = "/api/register")) /\
  ((value "password" w = "" \/ 6 <= js_length (value "password" w))%nat ->
   (name <> "" -> (js_length name < 2)%nat -> p = done (alert invalid w)) /\
   (name = "" \/ (2 <= js_length name)%nat ->
    p.2 = [ProfileUpdate (textContent (submitBtn w)) name] /\
    exists req, requests p.1 = requests w ++ [req] /\
      method req = "PUT" /\ url req = "/api/profile")).
Proof.
  cbv zeta. unfold_triggers. split.
  - intros Hpw. apply Nat.ltb_ge in Hpw. rewrite Hpw. split.
    + intros Hname. apply Nat.ltb_lt in Hname. by rewrite Hname.
    + intros Hname. apply Nat.ltb_ge in Hname. rewrite Hname. page_simpl.
      split; [reflexivity | eexists; repeat split].
  - intros Hpw.
    assert (negb (bool_decide (value "password" w = ""))
            && (js_length (value "password" w) <? 6)%nat = false) as ->.
    { destruct Hpw as [-> | Hpw]; [reflexivity | ].
      apply Nat.ltb_ge in Hpw. rewrite Hpw. apply andb_false_r. }
    split.
    + intros Hne Hname. apply Nat.ltb_lt in Hname.
      by rewrite (bool_decide_eq_false_2 _ Hne), Hname.
    + intros Hname.
      assert (negb (bool_decide (trim (value "fullName" w) = ""))
              && (js_length (trim (value "fullName" w)) <? 2)%nat = false) as ->.
      { destruct Hname as [-> | Hname]; [reflexivity | ].
        apply Nat.ltb_ge in Hname. rewrite Hname. apply andb_false_r. }
      page_simpl. split; [reflexivity | eexists; repeat split].
Qed.

End Fields.

(** ** The profile page *)

Section Profile.
Context `{Browser}.

(** X11: a successful profile update rewrites the stored user and nothing
    else of the store.  When the stored text parses to a user [u], the
    user key gets [u] serialised again, with the submitted name if one
    was given; the token key is as it was; the password field is emptied;
    the profile is loaded again; the control is restored. *)
Theorem update_rewrites_stored_user (originalText name stored : string)
    (u : User.t) (w : World) :
  getItem "user" w = Some stored ->
  stored <> "" ->
  JSON_parse stored = Json u ->
  let o := resume (ProfileUpdate originalText name) (Ok (Json tt)) w in
  getItem "user" o.1
  = Some (JSON_stringify (if bool_decide (name = "") then u else renamed name u)) /\
  getItem "access_token" o.1 = getItem "access_token" w /\
  value "password" o.1 = "" /\
  o.2 = [ProfilePageLoad] /\
  submitBtn o.1 = {| disabled := false; textContent := originalText |} /\
  alerts o.1 = alerts w ++ ["✅ Profile updated successfully!"].
Proof.
  intros Hstored Hfull Hparse. cbv zeta. unfold_replies. page_simpl.
  unfold getItem in Hstored. rewrite Hstored. cbn [truthy str_or].
  rewrite (bool_decide_eq_false_2 _ Hfull). cbn [negb]. rewrite Hparse.
  page_simpl. lookup_simpl.
  unfold renamed. destruct (bool_decide (name = "")); repeat split.
Qed.

(** X12: the profile form reads the body before it looks at the status.
    A reply whose body does not parse, be it a 2xx or a 401, is reported
    as a network error: the store is untouched, the page stays, nothing is
    reloaded and the control is restored.  The same report follows a
    success when the stored user does not parse, after the success message
    and with the password field already emptied. *)
Theorem profile_reads_body_first (originalText name msg : string) (w : World) :
  let report (o : outcome) (shown : list string) :=
    alerts o.1 = alerts w ++ shown /\
    localStorage o.1 = localStorage w /\ href o.1 = href w /\ o.2 = [] /\
    submitBtn o.1 = {| disabled := false; textContent := originalText |} in
  report (resume (ProfileUpdate originalText name) (Ok (SyntaxError msg)) w)
    ["❌ Network error: " +:+ msg] /\
  (forall status,
     report (resume (ProfileUpdate originalText name)
               (NotOk status (SyntaxError msg)) w)
       ["❌ Network error: " +:+ msg]) /\
  (forall stored,
     getItem "user" w = Some stored -> stored <> "" ->
     JSON_parse stored = SyntaxError msg ->
     report (resume (ProfileUpdate originalText name) (Ok (Json tt)) w)
       ["✅ Profile updated successfully!"; "❌ Network error: " +:+ msg] /\
     value "password"
       (resume (ProfileUpdate originalText name) (Ok (Json tt)) w).1 = "").
Proof.
  cbv zeta. split; [ | split].
  - unfold_replies. page_simpl. repeat split.
  - intros status. unfold_replies. page_simpl. repeat split.
  - intros stored Hstored Hfull Hparse. unfold_replies. page_simpl.
    unfold getItem in Hstored. rewrite Hstored. cbn [truthy str_or].
    rewrite (bool_decide_eq_false_2 _ Hfull). cbn [negb]. rewrite Hparse.
    page_simpl. lookup_simpl. rewrite <- app_assoc. repeat split.
Qed.

(** X13: a photo upload that fails, with an error status or with a rejected
    promise, empties the input and loads the profile again, keeping the
    store.  If the failure was a 401 and the reload is answered with a 401
    too, the reload ends the session: both keys go and the page leaves
    for the login page. *)
Theorem failed_upload_reloads_profile (r : reply (option string)) (w : World) :
  ~ success r ->
  let o := resume UploadPhoto r w in
  o.2 = [ProfilePageLoad] /\
  requests o.1
  = requests w ++ [ {| method := "GET"; url := "/api/profile";
                       content_json := false;
                       authorization := Some (bearer w); body := NoBody |} ] /\
  value "photoInput" o.1 = "" /\
  localStorage o.1 = localStorage w /\ href o.1 = href w /\
  (forall body,
     cleared (settle ProfilePageLoad (NotOk 401 body) o.1) /\
     href (settle ProfilePageLoad (NotOk 401 body) o.1) = "/login").
Proof.
  intros Hfail. cbv zeta. unfold cleared. unfold_replies.
  destruct r as [msg | [msg | a] | status [msg | detail]];
    try (exfalso; apply Hfail; exact I);
    rewrite ?Z.eqb_refl; unfold bearer; page_simpl; lookup_simpl;
    rewrite lookup_delete_ne by discriminate; rewrite !lookup_delete_eq;
    repeat split.
Qed.

(** X14: a login followed by a logout is a round trip on the store of a
    browser that held no session: after the login both keys are there,
    after the logout the store is what it was before the login. *)
Theorem login_logout_round_trip (originalText : string) (data : LoginData)
    (r : reply unit) (w : World) :
  cleared w ->
  let signed := settle (Login originalText) (Ok (Json data)) w in
  getItem "access_token" signed = Some (access_token data) /\
  getItem "user" signed = Some (JSON_stringify (user data)) /\
  localStorage (settle ProfileLogout r signed) = localStorage w /\
  localStorage (settle DashboardLogout r signed) = localStorage w /\
  localStorage (AircraftPage.logout signed) = localStorage w.
Proof.
  intros [Htoken Huser]. cbv zeta. unfold AircraftPage.logout.
  unfold_replies. page_simpl. unfold getItem in Htoken, Huser.
  rewrite lookup_insert_ne by discriminate. rewrite !lookup_insert_eq.
  assert (delete "user" (delete "access_token"
            (<["user" := JSON_stringify (user data)]>
               (<["access_token" := access_token data]> (localStorage w))))
          = localStorage w) as Hback.
  { apply map_eq. intros k.
    destruct (decide (k = "user")) as [-> | Hu];
      [by rewrite lookup_delete_eq | ].
    rewrite lookup_delete_ne by done.
    destruct (decide (k = "access_token")) as [-> | Ht];
      [by rewrite lookup_delete_eq | ].
    rewrite lookup_delete_ne by done.
    by rewrite !lookup_insert_ne by done. }
  rewrite Hback. repeat split.
Qed.

End Profile.

(** ** Rendering and local stops *)

Section Views.
Context `{Browser}.

Lemma concat_app (l1 l2 : list string) :
  String.concat "" (l1 ++ l2) = String.concat "" l1 +:+ String.concat "" l2.
Proof.
  induction l1 as [ | x l1 IH]; [reflexivity | ].
  rewrite <- app_comm_cons, !concat_cons, IH. apply append_assoc.
Qed.

(** X15: the cards of the grid and the entries of the activity log are
    rendered one per record, in the order of the list, with nothing in
    between: what a list of two non-empty parts renders to is what the
    first part renders to, followed by what the second renders to. *)
Theorem lists_render_in_order :
  (forall a1 l1 a2 l2,
     AircraftPage.gridHtml ((a1 :: l1) ++ (a2 :: l2))
     = AircraftPage.gridHtml (a1 :: l1) +:+ AircraftPage.gridHtml (a2 :: l2)) /\
  (forall a, AircraftPage.gridHtml [a] = AircraftPage.aircraftCard a) /\
  (forall g1 l1 g2 l2,
     DashboardPage.logsHtml ((g1 :: l1) ++ (g2 :: l2))
     = DashboardPage.logsHtml (g1 :: l1) +:+ DashboardPage.logsHtml (g2 :: l2)) /\
  (forall g, DashboardPage.logsHtml [g] = DashboardPage.activityItem g).
Proof.
  unfold AircraftPage.gridHtml, DashboardPage.logsHtml.
  repeat split; intros.
  - rewrite <- app_comm_cons.
    rewrite !bool_decide_eq_false_2 by discriminate.
    by rewrite app_comm_cons, map_app, concat_app.
  - rewrite <- app_comm_cons.
    rewrite !bool_decide_eq_false_2 by discriminate.
    by rewrite app_comm_cons, map_app, concat_app.
Qed.

(** X16: the writes behind a null check are skipped when the element is
    not in the page.  Without the grid and the three counters a loaded
    list changes nothing; without the total of the form
    [calculateTotalSeats] changes nothing; without the overlay
    [showLoading] and [hideLoading] change nothing. *)
Theorem missing_targets_are_skipped (l : list Aircraft.t) (w : World) :
  ("aircraftGrid" ∉ elements w -> "totalAircraft" ∉ elements w ->
   "activeAircraft" ∉ elements w -> "totalSeats" ∉ elements w ->
   resume LoadAircraft (Ok (Json l)) w = done w) /\
  ("totalSeatsCalc" ∉ elements w -> AircraftPage.calculateTotalSeats w = w) /\
  ("loadingOverlay" ∉ elements w ->
   AircraftPage.showLoading w = w /\ AircraftPage.hideLoading w = w).
Proof.
  unfold AircraftPage.showLoading. unfold_replies. unfold setProp_if_present.
  split; [ | split].
  - intros Hgrid Htotal Hactive Hseats.
    rewrite (bool_decide_eq_false_2 _ Hgrid). cbn [negb].
    rewrite (bool_decide_eq_false_2 _ Htotal).
    rewrite (bool_decide_eq_false_2 _ Hactive).
    by rewrite (bool_decide_eq_false_2 _ Hseats).
  - intros Hcalc. by rewrite (bool_decide_eq_false_2 _ Hcalc).
  - intros Hoverlay. by rewrite (bool_decide_eq_false_2 _ Hoverlay).
Qed.

(** X17: a submission of any of the six forms that is stopped before the
    network shows at most one message and changes nothing else of the
    page: it is the page as it was, or the page with one more alert. *)
Theorem local_stop_only_alerts (f : form) (w w1 : World) :
  perform (submit f) w = (w1, []) ->
  w1 = w \/ exists msg, w1 = alert msg w.
Proof.
  destruct f; unfold_triggers; repeat case_match; intros [= <-];
    first [by left | right; eexists; reflexivity].
Qed.

End Views.

(** ** What the other handlers leave alone *)

Section Quiet.
Context `{Browser}.

(** X18: the store and the location belong to the session handlers.  A
    turn of the event loop that is not a page load, not the logout of the
    aircraft page and not the reply to a login, registration, reset,
    profile load, profile update or logout call leaves both as they were:
    typing, validation, the photo and activity-log calls, forgot-password,
    the verification mail and every call of the aircraft page never write
    the store and never navigate. *)
Theorem others_keep_store_and_location (e : event) (m m' : Machine) :
  session_event e = false ->
  step e m = Some m' ->
  localStorage (page m') = localStorage (page m) /\
  href (page m') = href (page m).
Proof.
  destruct e as [a | i c r]; cbn [step session_event].
  - intros Hquiet. destruct (perform a (page m)) as [w new] eqn:Hp.
    intros [= <-]. cbn [page]. revert Hp.
    destruct a; try discriminate Hquiet; unfold_triggers;
      repeat case_match; intros [= <- <-]; page_simpl; by split.
  - intros Hquiet. case_bool_decide; [ | discriminate].
    destruct (resume c r (page m)) as [w new] eqn:Hp.
    intros [= <-]. cbn [page]. revert Hp.
    destruct c; try discriminate Hquiet; unfold_replies;
      destruct r as [msg | [msg | a] | status [msg | detail]];
      repeat case_match; simplify_eq; unfold done;
      intros [= <- <-]; page_simpl; by split.
Qed.

End Quiet.

(** ** The further properties at concrete pages *)

(** Membership of an id in the elements of a concrete page. *)
Ltac in_page := apply (bool_decide_unpack _); vm_compute; exact I.

(** X1 on the dashboard of a signed-in user who logs out while offline:
    the store is emptied and the binding still holds the token. *)
Lemma token_bound_at_load_witness :
  exists m, run (H := plain_browser) offline_logout on_dashboard = Some m /\
    cleared (page m) /\ token (page m) = Some "t0k3n".
Proof.
  eexists. split; [vm_compute; reflexivity | ]. split; [by split | ].
  apply (@token_bound_at_load plain_browser offline_logout on_dashboard);
    reflexivity.
Defined.

(** X3 on the load of the dashboard. *)
Lemma calls_and_headers_witness :
  exists m reqs calls,
    step (H := plain_browser) (Act DashboardLoadPage) on_dashboard = Some m /\
    requests (page m) = requests (page on_dashboard) ++ reqs /\
    Forall2 carries_token reqs calls /\ inflight m = calls.
Proof.
  destruct (@calls_and_headers plain_browser (Act DashboardLoadPage)
              on_dashboard _ eq_refl) as (reqs & calls & Hreqs & Hcalls & Hauth & _).
  eexists _, reqs, calls. split; [reflexivity | ].
  split; [exact Hreqs | ]. split; [exact Hauth | exact Hcalls].
Defined.

(** X4 on the login form: disabled while the call is out, still disabled
    after a success, idle again after a 401. *)
Lemma control_follows_the_call_witness :
  let w := filled [("email", "ada@skylink.test"); ("password", "secret1")] blank in
  let w1 := (perform (H := plain_browser) (submit LoginForm) w).1 in
  let signed := resume (H := plain_browser) (Login "Submit")
                  (Ok (Json {| access_token := "t0k3n"; user := ada |})) w1 in
  let refused := resume (H := plain_browser) (Login "Submit")
                   (NotOk 401 (Json (Some "Invalid credentials"))) w1 in
  submitBtn w1 = {| disabled := true; textContent := "Logging in..." |} /\
  (submitBtn signed.1 = submitBtn w1 /\ href signed.1 = "/dashboard") /\
  (submitBtn refused.1 = submitBtn w /\ href refused.1 = href w).
Proof.
  cbv zeta.
  pose proof (@control_follows_the_call plain_browser LoginForm
    (filled [("email", "ada@skylink.test"); ("password", "secret1")] blank)
    _ (Login "Submit") (Ok (Json {| access_token := "t0k3n"; user := ada |}))
    eq_refl eq_refl) as [Hbusy [Hsigned _]].
  pose proof (@control_follows_the_call plain_browser LoginForm
    (filled [("email", "ada@skylink.test"); ("password", "secret1")] blank)
    _ (Login "Submit") (NotOk 401 (Json (Some "Invalid credentials")))
    eq_refl eq_refl) as [_ [_ Hrefused]].
  split; [exact Hbusy | ]. split; [exact (Hsigned I) | ].
  apply Hrefused. intros [].
Defined.

(** X5 on a status change answered with a 500. *)
Lemma overlay_follows_the_call_witness :
  let w1 := (perform (H := plain_browser)
               (ChangeStatusClick 1 "active" (Some "Retired")) hangar).1 in
  "loadingOverlay" ∈ elements hangar /\
  getProp "loadingOverlay" "display" w1 = "flex" /\
  getProp "loadingOverlay" "display"
    (resume (H := plain_browser) ChangeStatus (NotOk 500 (Json None)) w1).1
  = "none".
Proof.
  cbv zeta.
  assert ("loadingOverlay" ∈ elements hangar) as Hoverlay by in_page.
  split; [exact Hoverlay | ].
  apply (@overlay_follows_the_call plain_browser
           (ChangeStatusClick 1 "active" (Some "Retired")) hangar _ ChangeStatus
           (NotOk 500 (Json None)));
    [right; eauto | reflexivity | exact Hoverlay].
Defined.

(** X6 on the first aircraft of the fleet, opened as record 7. *)
Lemma edit_then_save_witness :
  let w1 := settle (H := plain_browser) (EditAircraft 7) (Ok (Json sk101)) hangar in
  exists req d,
    requests (AircraftPage.saveAircraft (H := plain_browser) w1).1 = [req] /\
    method req = "PUT" /\
    url req = "http://127.0.0.1:8000/api/flights/aircraft/7" /\
    body req = AircraftBody d /\
    AircraftData.manufacturing_year d = Some (Num 2015) /\
    AircraftData.total_seats d = Num 180.
Proof.
  cbv zeta.
  destruct (@edit_then_save plain_browser 7 sk101 hangar
              ltac:(unfold safe; lia)
              ltac:(intros y [= <-]; unfold safe; lia)
              ltac:(cbn; lia) ltac:(cbn; lia) ltac:(cbn; lia) ltac:(cbn; lia)
              eq_refl)
    as (_ & _ & req & d & Hreq & Hmethod & Hurl & _ & Hbody & _ & _ & _ & _
        & Hyear & _ & _ & _ & Htotal).
  exists req, d. repeat split; assumption.
Defined.

(** X7 after record 7 was opened for editing. *)
Lemma create_after_edit_posts_witness :
  let edited := settle (H := plain_browser) (EditAircraft 7) (Ok (Json sk101)) hangar in
  let w1 := AircraftPage.openCreateModal (H := plain_browser) edited in
  editingAircraftId edited = Some 7 /\
  exists req,
    requests (AircraftPage.saveAircraft (H := plain_browser) w1).1 = [req] /\
    method req = "POST" /\
    url req = "http://127.0.0.1:8000/api/flights/aircraft".
Proof.
  cbv zeta. split; [reflexivity | ].
  destruct (@create_after_edit_posts plain_browser
              (settle (H := plain_browser) (EditAircraft 7) (Ok (Json sk101)) hangar)
              eq_refl)
    as (_ & _ & _ & _ & req & Hreq & Hmethod & Hurl & _).
  exists req. repeat split; assumption.
Defined.

(** X8 on the fleet of two: 2 records, 1 in service, 316 seats. *)
Lemma counters_of_the_fleet_witness :
  let w := AircraftPage.updateStats (H := plain_browser) fleet hangar in
  getProp "totalAircraft" "textContent" w = "2" /\
  getProp "activeAircraft" "textContent" w = "1" /\
  getProp "totalSeats" "textContent" w = "316".
Proof.
  cbv zeta.
  destruct (@counters_of_the_fleet plain_browser fleet hangar
              ltac:(in_page) ltac:(in_page) ltac:(in_page))
    as (Htotal & Hactive & _ & Hseats).
  split; [exact Htotal | ]. split; [exact Hactive | ].
  apply Hseats; [repeat constructor; cbn; lia | cbn; lia].
Defined.

(** X9 with an e-mail field of a space and a no-break space, and with an
    address between such spaces. *)
Lemma blank_email_blocked_witness :
  let nbsp := bytes [194; 160]%nat in
  let spaces := filled [("email", " " +:+ nbsp); ("password", "secret1")] blank in
  let padded := filled [("email", nbsp +:+ "ada@skylink.test "); ("password", "secret1")] blank in
  ForgotPasswordPage.forgotPasswordForm_submit spaces
  = done (alert "❌ Please enter your email address!" spaces) /\
  requests (ForgotPasswordPage.forgotPasswordForm_submit padded).1
  = [ {| method := "POST"; url := "/api/forgot-password"; content_json := true;
         authorization := None; body := EmailBody "ada@skylink.test" |} ].
Proof.
  cbv zeta. split.
  - apply (blank_email_blocked
             (filled [("email", " " +:+ bytes [194; 160]%nat);
                      ("password", "secret1")] blank)).
    apply trim_white_space. reflexivity.
  - apply (blank_email_blocked
             (filled [("email", bytes [194; 160]%nat +:+ "ada@skylink.test ");
                      ("password", "secret1")] blank)).
    intros Hblank. apply trim_white_space in Hblank. discriminate Hblank.
Defined.

(** X10 with a name of one letter, which takes two bytes, between spaces. *)
Lemma short_name_blocked_witness :
  let w := filled [("fullName", " Я "); ("password", "пароль")] blank in
  RegisterPage.registerForm_submit w
  = done (alert "❌ Please enter a valid full name!" w) /\
  ProfilePage.profileForm_submit w
  = done (alert "❌ Please enter a valid full name!" w).
Proof.
  cbv zeta.
  destruct (short_name_blocked
              (filled [("fullName", " Я "); ("password", "пароль")] blank))
    as [Hregister Hprofile].
  destruct Hregister as [Hstopped _]; [vm_compute; lia | ].
  destruct Hprofile as [Hstopped' _]; [right; vm_compute; lia | ].
  split.
  - apply Hstopped. vm_compute. lia.
  - apply Hstopped'; [vm_compute; discriminate | vm_compute; lia].
Defined.

(** X11 on the profile of [ada], renamed. *)
Lemma update_rewrites_stored_user_witness :
  let o := resume (H := naming_browser) (ProfileUpdate "Save" "Ada King")
             (Ok (Json tt)) ada_profile in
  getItem "user" o.1 = Some "Ada King" /\
  getItem "access_token" o.1 = Some "t0k3n" /\
  o.2 = [ProfilePageLoad].
Proof.
  cbv zeta.
  destruct (@update_rewrites_stored_user naming_browser "Save" "Ada King"
              "Ada Byron" (renamed "Ada Byron" ada) ada_profile
              eq_refl ltac:(discriminate) eq_refl)
    as (Huser & Htoken & _ & Hload & _).
  split; [exact Huser | ]. split; [exact Htoken | exact Hload].
Defined.

(** X12 on a page whose stored user does not parse. *)
Lemma profile_reads_body_first_witness :
  let o := resume (H := plain_browser) (ProfileUpdate "Save" "Ada King")
             (Ok (Json tt)) ada_profile in
  alerts o.1 = ["✅ Profile updated successfully!";
                "❌ Network error: Unexpected token"] /\
  localStorage o.1 = localStorage ada_profile /\ o.2 = [].
Proof.
  cbv zeta.
  destruct (proj2 (proj2 (@profile_reads_body_first plain_browser
              "Save" "Ada King" "Unexpected token" ada_profile))
              "Ada Byron" eq_refl ltac:(discriminate) eq_refl)
    as ((Halerts & Hstore & _ & Hnone & _) & _).
  split; [exact Halerts | ]. split; [exact Hstore | exact Hnone].
Defined.

(** X13 on an upload refused with a 401. *)
Lemma failed_upload_reloads_profile_witness :
  let o := resume (H := plain_browser) UploadPhoto (NotOk 401 (Json None)) signed_in in
  o.2 = [ProfilePageLoad] /\
  localStorage o.1 = localStorage signed_in /\
  cleared (settle (H := plain_browser) ProfilePageLoad (NotOk 401 (Json None)) o.1).
Proof.
  cbv zeta.
  destruct (@failed_upload_reloads_profile plain_browser
              (NotOk 401 (Json None)) signed_in ltac:(intros []))
    as (Hload & _ & _ & Hstore & _ & Hreload).
  split; [exact Hload | ]. split; [exact Hstore | ].
  exact (proj1 (Hreload (Json None))).
Defined.

(** X14 from a fresh browser. *)
Lemma login_logout_round_trip_witness :
  let signed := settle (H := plain_browser) (Login "Submit")
                  (Ok (Json {| access_token := "t0k3n"; user := ada |})) blank in
  cleared blank /\
  getItem "access_token" signed = Some "t0k3n" /\
  localStorage (settle (H := plain_browser) ProfileLogout (Rejected "offline") signed)
  = localStorage blank.
Proof.
  cbv zeta.
  assert (cleared blank) as Hfresh by (split; reflexivity).
  destruct (@login_logout_round_trip plain_browser "Submit"
              {| access_token := "t0k3n"; user := ada |} (Rejected "offline")
              blank Hfresh) as (Htoken & _ & Hback & _).
  split; [exact Hfresh | ]. split; [exact Htoken | exact Hback].
Defined.

(** X16 on a page with none of the optional elements. *)
Lemma missing_targets_are_skipped_witness :
  resume (H := plain_browser) LoadAircraft (Ok (Json fleet)) bare = done bare /\
  AircraftPage.calculateTotalSeats bare = bare.
Proof.
  split.
  - apply (@missing_targets_are_skipped plain_browser fleet bare);
      intros Hin; apply elem_of_empty in Hin; exact Hin.
  - apply (@missing_targets_are_skipped plain_browser fleet bare).
    intros Hin. apply elem_of_empty in Hin. exact Hin.
Defined.

(** X17 on the login form left empty. *)
Lemma local_stop_only_alerts_witness :
  (perform (H := plain_browser) (submit LoginForm) blank).1 = blank \/
  exists msg, (perform (H := plain_browser) (submit LoginForm) blank).1
              = alert msg blank.
Proof.
  apply (@local_stop_only_alerts plain_browser LoginForm blank). reflexivity.
Defined.

(** X18 on a photo deletion answered with a 401. *)
Lemma others_keep_store_and_location_witness :
  let m := {| page := signed_in; inflight := [DeletePhoto] |} in
  exists m', step (H := plain_browser)
               (Arrive 0 DeletePhoto (NotOk 401 (Json None))) m = Some m' /\
    localStorage (page m') = localStorage signed_in /\
    href (page m') = href signed_in.
Proof.
  cbv zeta. eexists. split; [reflexivity | ].
  apply (@others_keep_store_and_location plain_browser
           (Arrive 0 DeletePhoto (NotOk 401 (Json None)))
           {| page := signed_in; inflight := [DeletePhoto] |});
    reflexivity.
Defined.

(** X19 with the answer in capitals. *)
Lemma valid_status_sent_witness :
  (toLowerCase "RETIRED" ∈ AircraftPage.statuses) /\
  exists req,
    requests (AircraftPage.changeStatus 1 "active" (Some "RETIRED") hangar).1 = [req] /\
    body req = StatusBody "retired".
Proof.
  assert (toLowerCase "RETIRED" ∈ AircraftPage.statuses) as Hin
    by (apply list_elem_of_In; cbn; tauto).
  split; [exact Hin | ].
  destruct (valid_status_sent 1 "active" "RETIRED" hangar Hin)
    as (_ & req & Hreq & _ & Hbody).
  exists req. split; [exact Hreq | exact Hbody].
Defined.
